(** * ThinkTank-Bot backend (src/backend.py): a shallow embedding

    The Flask handlers of the document assistant are modelled as programs
    of a small exception monad that records, in order, every call made to
    an external service (blob storage, SAS signing, Document Intelligence,
    chat completion).  What the external services answer, the clock and the
    random identifier are read from a [world]; the deployment constants are
    read from a [config].

    Python values that come from a request body are [json] values; Python's
    dynamic failures ([KeyError], [TypeError], [AttributeError],
    [IndexError], [OverflowError]) are raised where the interpreter raises
    them.  Text is kept as its UTF-8 bytes.  The diagnostic [print] calls
    of [extract_text] are not logged, but they raise [UnicodeEncodeError]
    when the process output cannot encode what they are given. *)

From Stdlib Require Import ZArith Ascii String.
From Stdlib Require QArith_base.
From stdpp Require Import gmap strings list fin_maps.

Set Warnings "-register-all".
Local Open Scope Z_scope.
Local Open Scope string_scope.

(** ** Strings the way Python handles them *)

Module PyStr.

(** The double-quote character, which occurs inside two prompt templates. *)
Definition dquote : string := String (ascii_of_nat 34) "".

(** The line feed that separates the lines of a triple-quoted literal. *)
Definition nl : string := String (ascii_of_nat 10) "".

(** [sep.join(items)]. *)
Fixpoint join (sep : string) (items : list string) : string :=
  match items with
  | [] => ""
  | x :: rest =>
      match rest with
      | [] => x
      | _ :: _ => x +:+ sep +:+ join sep rest
      end
  end.

(** A triple-quoted literal, given line by line. *)
Definition lines (ls : list string) : string := join nl ls.

(** [s[:n]] and [s[n:]] for a non-negative literal [n]; both clamp at the
    end of the string, as Python's slices do. *)
Fixpoint take (n : nat) (s : string) : string :=
  match n, s with
  | S n', String c s' => String c (take n' s')
  | _, _ => ""
  end.

Fixpoint drop (n : nat) (s : string) : string :=
  match n, s with
  | S n', String _ s' => drop n' s'
  | _, _ => s
  end.

(** [s[a:b]] for literals [0 <= a <= b]. *)
Definition slice (a b : nat) (s : string) : string := take (b - a) (drop a s).

(** [s.startswith(p)]. *)
Fixpoint startswith (p s : string) : bool :=
  match p, s with
  | "", _ => true
  | String a p', String b s' => if Ascii.eqb a b then startswith p' s' else false
  | String _ _, "" => false
  end.

(** [s.endswith(p)], by comparing against the last [len(p)] characters. *)
Definition endswith (p s : string) : bool :=
  (String.length p <=? String.length s)%nat
  && String.eqb (drop (String.length s - String.length p) s) p.

(** [s.find(p)] with the search starting [off] characters into the
    original string: the index of the first occurrence, if any. *)
Fixpoint find_from (off : nat) (p s : string) : option nat :=
  if startswith p s then Some off
  else match s with
       | "" => None
       | String _ s' => find_from (S off) p s'
       end.

Definition find (p s : string) : option nat := find_from 0 p s.

(** [p in s]. *)
Definition contains (p s : string) : bool :=
  match find p s with Some _ => true | None => false end.

(** The needles occur in the string one after the other, without overlap,
    in the order of the list. *)
Fixpoint in_order (needles : list string) (s : string) : bool :=
  match needles with
  | [] => true
  | p :: rest =>
      match find p s with
      | Some i => in_order rest (drop (i + String.length p) s)
      | None => false
      end
  end.

End PyStr.

(** ** Character classes *)

(** [all(p(c) for c in s)]. *)
Fixpoint all_chars (p : ascii -> bool) (s : string) : bool :=
  match s with
  | "" => true
  | String c s' => p c && all_chars p s'
  end.

(** [c != "_"]. *)
Definition not_underscore (c : ascii) : bool := negb (Ascii.eqb c "_").

(** A character of plain ASCII: a byte below 128. *)
Definition is_ascii (c : ascii) : bool := (nat_of_ascii c <? 128)%nat.

(** ** Identifiers: [uuid.UUID] *)

Module Uuid.

(** A UUID is its 128-bit integer, as in the [int] attribute of
    [uuid.UUID]; the constructor rejects anything outside
    [0 <= int < 1 << 128]. *)
Record UUID := { int : Z }.

Definition valid (u : UUID) : Prop := 0 <= int u < 2 ^ 128.

Definition hex_digit (d : Z) : ascii :=
  ascii_of_nat (Z.to_nat (if (d <? 10)%Z then 48 + d else 87 + d)).

(** The [k] low hexadecimal digits of [n], most significant first: what
    ['%0kx' % n] yields for [0 <= n < 16 ^ k]. *)
Fixpoint hex_fixed (k : nat) (n : Z) : string :=
  match k with
  | O => ""
  | S k' => hex_fixed k' (n / 16) +:+ String (hex_digit (n mod 16)) ""
  end.

(** [UUID.__str__] is [hex = '%032x' % self.int] followed by
    ['%s-%s-%s-%s-%s' % (hex[:8], hex[8:12], hex[12:16], hex[16:20], hex[20:])]. *)
Definition grouped (hex : string) : string :=
  PyStr.take 8 hex +:+ "-" +:+ PyStr.slice 8 12 hex +:+ "-" +:+
  PyStr.slice 12 16 hex +:+ "-" +:+ PyStr.slice 16 20 hex +:+ "-" +:+
  PyStr.drop 20 hex.

Definition str (u : UUID) : string := grouped (hex_fixed 32 (int u)).

End Uuid.

(** [f"{uuid.uuid4()}_{file.filename}"], the blob name of an upload. *)
Definition storage_key (u : Uuid.UUID) (original_name : string) : string :=
  Uuid.str u +:+ "_" +:+ original_name.

(** ** Values, exceptions and the handler monad *)

(** A parsed JSON body, as [request.json] / [request.get_json()] hand it to
    the handlers: [None], [bool], a number (kept as its literal), [str],
    [list] and [dict]. *)
Inductive json :=
| JNull
| JBool (b : bool)
| JNumber (literal : string)
| JString (s : string)
| JArray (items : list json)
| JObject (fields : gmap string json).

(** The exceptions a handler can meet.  [ServiceError] stands for whatever
    an Azure or OpenAI client raises and carries its [str(e)]; the others
    are raised by Python or Werkzeug on the handler's own operations. *)
Inductive exn :=
| BadRequestKeyError (key : string)
| KeyError (key : string)
| TypeError (operand : json)
| AttributeError (receiver : json) (attr : string)
| IndexError
| OverflowError
| UnicodeEncodeError
| ServiceError (message : string).

Inductive outcome (A : Type) :=
| Ok (a : A)
| Raise (e : exn).
Arguments Ok {A} a.
Arguments Raise {A} e.

(** [datetime] and [timedelta] in microseconds; a [datetime] counts from
    0001-01-01T00:00:00 and ends at [datetime.max]. *)
Definition datetime := Z.
Definition timedelta := Z.

Definition datetime_max : datetime := 3652059 * 86400 * 1000000 - 1.

Definition timedelta_minutes (m : Z) : timedelta := m * 60 * 1000000.

Record FileStorage := { filename : string; stream : list Init.Byte.byte }.

Module Sas.

(** [BlobSasPermissions(...)] of the Azure storage client: every flag
    defaults to [False]. *)
Record BlobSasPermissions := {
  read : bool;
  add : bool;
  create : bool;
  write : bool;
  delete : bool;
  delete_previous_version : bool;
  tag : bool
}.

(** [BlobSasPermissions(read=r)]: the flags not passed keep their
    default. *)
Definition with_read (r : bool) : BlobSasPermissions :=
  {| read := r; add := false; create := false; write := false;
     delete := false; delete_previous_version := false; tag := false |}.

(** The keyword arguments of [generate_blob_sas]: the access grant that
    gets signed. *)
Record args := {
  account_name : string;
  container_name : option string;
  blob_name : string;
  account_key : option string;
  permission : BlobSasPermissions;
  expiry : datetime
}.

End Sas.

Record DocumentParagraph := { content : string }.

(** [result.paragraphs] is an optional list. *)
Record AnalyzeResult := { paragraphs : option (list DocumentParagraph) }.

Inductive openai_client := client | client_with_extensions.

(** The keyword arguments of [chat.completions.create]. *)
Record completion_request := {
  via : openai_client;
  model : option string;
  temperature : QArith_base.Q;
  max_tokens : Z;
  messages : list json;
  extra_body : option json
}.

(** [choices[i].message.content]: the answer text, or [None] when the
    service returns a choice without content. *)
Record Choice := { message_content : option string }.
Record ChatCompletion := { choices : list Choice }.

(** Calls to the external services, in the order they are made. *)
Inductive event :=
| UploadBlob (container : option string) (blob : string) (file : FileStorage)
| GenerateBlobSas (grant : Sas.args)
| AnalyzeDocument (model_id url : string)
| CreateCompletion (req : completion_request).

(** The values of the environment variables read at start-up; [None] is
    what [os.getenv] gives for a variable that is not set. *)
Record config := {
  AZURE_OAI_DEPLOYMENT : option string;
  AZURE_SEARCH_ENDPOINT : option string;
  AZURE_SEARCH_KEY : option string;
  AZURE_SEARCH_INDEX : option string;
  AZURE_BLOB_CONTAINER : option string;
  AZURE_BLOB_KEY : option string
}.

(** Everything one request reads from outside the source file. *)
Record world := {
  uuid4 : Uuid.UUID;
  utcnow : datetime;
  blob_account_name : string;
  blob_url : option string -> string -> string;
  upload_blob : option string -> string -> FileStorage -> outcome unit;
  generate_blob_sas : Sas.args -> outcome string;
  begin_analyze_document_from_url : string -> string -> outcome AnalyzeResult;
  chat_completions_create : completion_request -> outcome ChatCompletion;
  (** [str(v)] for a value that is not a [str] *)
  str_of_value : json -> string;
  (** [str(e)] for an exception raised by Python or Werkzeug itself *)
  str_of_builtin : exn -> string;
  (** [str(result)] of an analysis result, as [f"{result}"] formats it *)
  str_of_result : AnalyzeResult -> string;
  (** whether the encoding of the process output can encode a text that
      is not plain ASCII *)
  stdout_encodes : string -> bool
}.

(** A handler body: it reads the log of calls made so far and returns a
    value or raises, with the log extended. *)
Definition M (A : Type) : Type := list event -> outcome A * list event.

#[export] Instance M_ret : MRet M := fun A a log => (Ok a, log).

#[export] Instance M_bind : MBind M := fun A B f m log =>
  match m log with
  | (Ok a, log') => f a log'
  | (Raise e, log') => (Raise e, log')
  end.

Definition raise {A : Type} (e : exn) : M A := fun log => (Raise e, log).

(** An external call: the event is logged and the service's answer is
    returned or raised. *)
Definition call {A : Type} (ev : event) (answer : outcome A) : M A :=
  fun log => (answer, (log ++ [ev])%list).

(** [try: body  except Exception as e: handler(e)]. *)
Definition try_except {A : Type} (body : M A) (handler : exn -> M A) : M A :=
  fun log =>
    match body log with
    | (Ok a, log') => (Ok a, log')
    | (Raise e, log') => handler e log'
    end.

(** One request, from an empty log. *)
Definition run {A : Type} (m : M A) : outcome A * list event := m [].

(** ** Python operations used by the handlers *)

(** [v[key]] with a string key. *)
Definition subscript (v : json) (key : string) : M json :=
  match v with
  | JObject fields =>
      match fields !! key with
      | Some x => mret x
      | None => raise (KeyError key)
      end
  | _ => raise (TypeError v)
  end.

(** [v.get(key, fallback)]: only a [dict] has [get]. *)
Definition dict_get (v : json) (key : string) (fallback : json) : M json :=
  match v with
  | JObject fields => mret (default fallback (fields !! key))
  | _ => raise (AttributeError v "get")
  end.

(** [prefix + v] for a list [prefix]. *)
Definition list_concat (prefix : list json) (v : json) : M (list json) :=
  match v with
  | JArray items => mret (prefix ++ items)%list
  | _ => raise (TypeError v)
  end.

(** [request.files[key]] and [request.form[key]]. *)
Definition multidict_getitem {A : Type} (d : gmap string A) (key : string) : M A :=
  match d !! key with
  | Some x => mret x
  | None => raise (BadRequestKeyError key)
  end.

(** [choices[0]]. *)
Definition first_choice (cs : list Choice) : M Choice :=
  match cs with
  | c :: _ => mret c
  | [] => raise IndexError
  end.

(** [d + delta] on a [datetime]. *)
Definition datetime_add (d : datetime) (delta : timedelta) : M datetime :=
  if ((0 <=? d + delta) && (d + delta <=? datetime_max))%Z
  then mret (d + delta)
  else raise OverflowError.

(** The truth value of [result.paragraphs]. *)
Definition truthy_paragraphs (ps : option (list DocumentParagraph)) : bool :=
  match ps with
  | Some (_ :: _) => true
  | _ => false
  end.

(** [[p.content for p in result.paragraphs]]; only evaluated on a truthy
    value, so the [None] case is never reached by the handlers. *)
Definition paragraph_contents (ps : option (list DocumentParagraph)) : list string :=
  match ps with
  | Some l => map content l
  | None => []
  end.

Record response := { body : json; status : Z }.

(** [jsonify({key: value})], with the status that accompanies it. *)
Definition jsonify (key : string) (value : string) (code : Z) : response :=
  {| body := JObject {[ key := JString value ]}; status := code |}.

(** [message.content] as a JSON value: [None] becomes [null]. *)
Definition json_of_content (content : option string) : json :=
  match content with
  | Some text => JString text
  | None => JNull
  end.

(** [jsonify({key: content})] for the content of a completion. *)
Definition jsonify_content (key : string) (content : option string) (code : Z) : response :=
  {| body := JObject {[ key := json_of_content content ]}; status := code |}.

(** [{"role": role, "content": content}]. *)
Definition turn (role : string) (content : json) : json :=
  JObject (<[ "role" := JString role ]> {[ "content" := content ]}).

Definition json_of_env (v : option string) : json :=
  match v with
  | Some s => JString s
  | None => JNull
  end.

(** ** The prompt templates, line by line as they stand in the source *)

Import PyStr.

(** [prompt] of [chatbot_query], up to the [{user_input}] field. *)
Definition chatbot_head : list string :=
  [ ""
  ; "      You are an AI assistant helping users engage with business documents."
  ; "      User query: "
  ].

(** [prompt] of [chatbot_query], after the [{user_input}] field. *)
Definition chatbot_tail : list string :=
  [ ""
  ; ""
  ; "    Always provide specific, relevant information      "
  ; "      First, give a general summary(Include scope & purpose). Then extract , focus on these:"
  ; "      - Technology Specs"
  ; "      - Problem being addressed"
  ; "        -User numbers and deployment scale"
  ; "        -Current systems and pain points"
  ; "        - Action Items for proposal team"
  ; "        - Required integrations"
  ; "        - If suggesting BOM items, explain why they match the requirements"
  ; "        If any section is missing, respond with: " +:+ dquote +:+ "This document does not contain information on [Missing Section]." +:+ dquote
  ; ""
  ; "        Respond clearly and conversationally."
  ; "    "
  ].

(** [prompt] of [upload_and_ask]: before [{full_text}], between the two
    fields, and after [{user_question}]. *)
Definition upload_head : list string :=
  [ ""
  ; "        The user uploaded this document:"
  ; "        "
  ].

Definition upload_mid : list string :=
  [ ""
  ; ""
  ; "        They asked:"
  ; "        "
  ].

Definition upload_tail : list string :=
  [ ""
  ; ""
  ; "        Please answer using only the document's contents."
  ; "        "
  ].

(** [prompt_intro] of [followup_chat]. *)
Definition prompt_intro_lines : list string :=
  [ ""
  ; ""
  ; "        You are an AI assistant analyzing uploaded business documents."
  ; "        First, summarize key content(include problem trying to solve/address). Then extract:"
  ; "        - Technology Specs"
  ; "        -User numbers and deployment scale"
  ; "        -Current systems and pain points"
  ; "        - Action Items for proposal team"
  ; "        - Required integrations"
  ; "        - If suggesting BOM items, explain why they match the requirements"
  ; "        - Compliance requirements"
  ; "        -conclusive summary"
  ; "        If any section is missing, respond with: " +:+ dquote +:+ "This document does not contain information on [Missing Section]." +:+ dquote
  ; "        Respond clearly and conversationally."
  ; ""
  ; "        "
  ].

Definition prompt_intro : string := lines prompt_intro_lines.

(** ** The handlers *)

(** A multipart request: [request.files] and [request.form]. *)
Record form_request := {
  files : gmap string FileStorage;
  form : gmap string string
}.

Section Handlers.

Variable cfg : config.
Variable w : world.

(** [str(e)].  The texts of [KeyError] (for a key without quotes or
    escapes, as the literal keys of the handlers are), [IndexError],
    [OverflowError] and Werkzeug's [BadRequestKeyError] are fixed; the
    others vary with the interpreter and are read from the world. *)
Definition str_exn (e : exn) : string :=
  match e with
  | ServiceError message => message
  | BadRequestKeyError _ =>
      "400 Bad Request: The browser (or proxy) sent a request that this server could not understand."
  | KeyError key => "'" +:+ key +:+ "'"
  | IndexError => "list index out of range"
  | OverflowError => "date value out of range"
  | _ => str_of_builtin w e
  end.

(** Whether [print(text)] goes through: plain ASCII always does, anything
    else only if the encoding of the process output has it. *)
Definition printable (text : string) : bool :=
  all_chars is_ascii text || stdout_encodes w text.

(** [print(text)]. *)
Definition print (text : string) : M unit :=
  if printable text then mret tt else raise UnicodeEncodeError.

(** A replacement field [{v}] of an f-string. *)
Definition format_field (v : json) : string :=
  match v with
  | JString s => s
  | _ => str_of_value w v
  end.

Definition extension_config : json :=
  JObject {[ "dataSources" :=
    JArray [ JObject (<[ "type" := JString "AzureCognitiveSearch" ]>
               {[ "parameters" :=
                  JObject (<[ "endpoint" := json_of_env (AZURE_SEARCH_ENDPOINT cfg) ]>
                          (<[ "key" := json_of_env (AZURE_SEARCH_KEY cfg) ]>
                           {[ "indexName" := json_of_env (AZURE_SEARCH_INDEX cfg) ]})) ]}) ] ]}.

Definition chatbot_prompt (user_input : json) : string :=
  lines chatbot_head +:+ format_field user_input +:+ lines chatbot_tail.

Definition chatbot_request (user_input : json) : completion_request :=
  {| via := client_with_extensions;
     model := AZURE_OAI_DEPLOYMENT cfg;
     temperature := QArith_base.Qmake 1 2;
     max_tokens := 1000;
     messages := [ turn "system" (JString "You answer using Azure Cognitive Search.")
                 ; turn "user" (JString (chatbot_prompt user_input)) ];
     extra_body := Some extension_config |}.

(** The [create] call followed by [response.choices[0].message.content]. *)
Definition complete (req : completion_request) : M (option string) :=
  response ← call (CreateCompletion req) (chat_completions_create w req);
  choice ← first_choice (choices response);
  mret (message_content choice).

Definition chatbot_query (user_input : json) : M (option string) :=
  try_except
    (complete (chatbot_request user_input))
    (fun ex => mret (Some ("Error retrieving insights: " +:+ str_exn ex))).

(** [POST /chat]; the argument is [request.json]. *)
Definition chat (request_json : json) : M response :=
  user_input ← dict_get request_json "message" (JString "");
  response_text ← chatbot_query user_input;
  mret (jsonify_content "response" response_text 200).

(** The arguments of the [generate_blob_sas] call. *)
Definition sas_for (blob : string) (expires : datetime) : Sas.args :=
  {| Sas.account_name := blob_account_name w;
     Sas.container_name := AZURE_BLOB_CONTAINER cfg;
     Sas.blob_name := blob;
     Sas.account_key := AZURE_BLOB_KEY cfg;
     Sas.permission := Sas.with_read true;
     Sas.expiry := expires |}.

(** The lines that [upload_and_ask] and [extract_text] have in common:
    store the file under a fresh name, sign a read grant for it and have
    the document analysed through the signed URL. *)
Definition upload_and_analyze (file : FileStorage) : M AnalyzeResult :=
  let blob := storage_key (uuid4 w) (filename file) in
  call (UploadBlob (AZURE_BLOB_CONTAINER cfg) blob file)
       (upload_blob w (AZURE_BLOB_CONTAINER cfg) blob file);;
  expires ← datetime_add (utcnow w) (timedelta_minutes 10);
  sas_token ← call (GenerateBlobSas (sas_for blob expires))
                   (generate_blob_sas w (sas_for blob expires));
  let sas_url := blob_url w (AZURE_BLOB_CONTAINER cfg) blob +:+ "?" +:+ sas_token in
  call (AnalyzeDocument "prebuilt-document" sas_url)
       (begin_analyze_document_from_url w "prebuilt-document" sas_url).

(** [full_text] of [upload_and_ask]. *)
Definition upload_full_text (result : AnalyzeResult) : string :=
  if truthy_paragraphs (paragraphs result)
  then join " " (paragraph_contents (paragraphs result))
  else "No content found".

Definition upload_prompt (full_text user_question : string) : string :=
  lines upload_head +:+ full_text +:+ lines upload_mid +:+ user_question
  +:+ lines upload_tail.

Definition upload_request (full_text user_question : string) : completion_request :=
  {| via := client;
     model := AZURE_OAI_DEPLOYMENT cfg;
     temperature := QArith_base.Qmake 1 2;
     max_tokens := 1000;
     messages := [ turn "system" (JString "You are an AI document assistant.")
                 ; turn "user" (JString (upload_prompt full_text user_question)) ];
     extra_body := None |}.

(** [POST /upload_and_ask]. *)
Definition upload_and_ask (request : form_request) : M response :=
  try_except
    (file ← multidict_getitem (files request) "file";
     user_question ← multidict_getitem (form request) "question";
     result ← upload_and_analyze file;
     let full_text := upload_full_text result in
     answer ← complete (upload_request full_text user_question);
     mret (jsonify_content "answer" answer 200))
    (fun e => mret (jsonify "error" (str_exn e) 500)).

(** [full_text] of [extract_text], computed once the paragraphs are known
    to be truthy. *)
Definition extract_full_text (result : AnalyzeResult) : string :=
  join " " (paragraph_contents (paragraphs result)).

(** U+1F50D, the magnifying glass that opens the debugging line. *)
Definition magnifier : string :=
  String (ascii_of_nat 240) (String (ascii_of_nat 159)
    (String (ascii_of_nat 148) (String (ascii_of_nat 141) ""))).

(** The text of the debugging [print] of [extract_text]. *)
Definition raw_response_line (result : AnalyzeResult) : string :=
  magnifier +:+ " Raw API Response: " +:+ str_of_result w result.

(** The text of the [print] in the [except] block of [extract_text]. *)
Definition error_line (e : exn) : string :=
  " Error extracting text: " +:+ str_exn e.

(** [POST /extract_text]. *)
Definition extract_text (request : form_request) : M response :=
  try_except
    (file ← multidict_getitem (files request) "file";
     result ← upload_and_analyze file;
     print (raw_response_line result);;
     if negb (truthy_paragraphs (paragraphs result))
     then mret (jsonify "error" "No text extracted from document" 400)
     else mret (jsonify "text" (extract_full_text result) 200))
    (fun e =>
       print (error_line e);;
       mret (jsonify "error" (str_exn e) 500)).

(** [messages] of [followup_chat]. *)
Definition followup_messages (doc_text chat_history : json) : M (list json) :=
  list_concat [ turn "system" (JString prompt_intro)
              ; turn "system" doc_text ] chat_history.

Definition followup_request (msgs : list json) : completion_request :=
  {| via := client;
     model := AZURE_OAI_DEPLOYMENT cfg;
     temperature := QArith_base.Qmake 1 2;
     max_tokens := 1000;
     messages := msgs;
     extra_body := None |}.

(** [POST /followup_chat]; the argument is [request.get_json()]. *)
Definition followup_chat (data : json) : M response :=
  try_except
    (doc_text ← subscript data "doc";
     chat_history ← subscript data "history";
     msgs ← followup_messages doc_text chat_history;
     answer ← complete (followup_request msgs);
     mret (jsonify_content "answer" answer 200))
    (fun e => mret (jsonify "error" (str_exn e) 500)).

End Handlers.

(** ** The specification's wording, for comparison *)

(** "concatenates the service's reported paragraph contents, in the order
    returned, with a single separating space": start from the first content
    and append a space and the next content, for each further one. *)
Definition spaced_concat (contents : list string) : string :=
  match contents with
  | [] => ""
  | first :: others => fold_left (fun acc c => acc +:+ " " +:+ c) others first
  end.

(** The total number of characters of the contents. *)
Definition total_length (contents : list string) : nat :=
  fold_right (fun c n => (String.length c + n)%nat) 0%nat contents.

(** The instruction block of the single-shot retrieval shape, in the order
    the specification lists it: the summary-first sentence, the section
    labels, the missing-section policy. *)
Definition single_shot_block : list string :=
  [ "First, give a general summary"
  ; "Technology Specs"
  ; "Problem being addressed"
  ; "User numbers and deployment scale"
  ; "Current systems and pain points"
  ; "Action Items for proposal team"
  ; "Required integrations"
  ; "If suggesting BOM items, explain why they match the requirements"
  ; "If any section is missing, respond with: " +:+ dquote +:+
    "This document does not contain information on [Missing Section]." +:+ dquote
  ].

(** ** A concrete deployment and concrete requests *)

Module Demo.

Definition cfg : config :=
  {| AZURE_OAI_DEPLOYMENT := Some "gpt-35-turbo";
     AZURE_SEARCH_ENDPOINT := Some "https://search.example.net";
     AZURE_SEARCH_KEY := Some "search-key";
     AZURE_SEARCH_INDEX := Some "proposals";
     AZURE_BLOB_CONTAINER := Some "uploads";
     AZURE_BLOB_KEY := Some "blob-key" |}.

(** 2025-01-01T00:00:00. *)
Definition new_year : datetime := 739251 * 86400 * 1000000.

(** A world in which storage and signing succeed, the analysis reports
    the given paragraphs and the completion service answers as given. *)
Definition world_with (id : Z) (ps : option (list DocumentParagraph))
    (completion : outcome ChatCompletion) : world :=
  {| uuid4 := {| Uuid.int := id |};
     utcnow := new_year;
     blob_account_name := "thinktank";
     blob_url := fun container blob =>
       "https://thinktank.blob.core.windows.net/" +:+ default "" container
       +:+ "/" +:+ blob;
     upload_blob := fun _ _ _ => Ok tt;
     generate_blob_sas := fun _ => Ok "sig=abc";
     begin_analyze_document_from_url := fun _ _ => Ok {| paragraphs := ps |};
     chat_completions_create := fun _ => completion;
     str_of_value := fun _ => "<value>";
     str_of_builtin := fun _ => "<error>";
     str_of_result := fun _ => "AnalyzeResult(...)";
     stdout_encodes := fun _ => true |}.

Definition answer (text : string) : outcome ChatCompletion :=
  Ok {| choices := [ {| message_content := Some text |} ] |}.

Definition id1 : Z := 0x123e4567e89b42d3a456426614174000.
Definition id2 : Z := 0x9b2f0c1ab7e44f0d8a3e5d6c7b8a9f10.

Definition report : FileStorage :=
  {| filename := "report.pdf"; stream := [] |}.

Definition ask (question : string) : form_request :=
  {| files := {[ "file" := report ]}; form := {[ "question" := question ]} |}.

Definition budget : list DocumentParagraph :=
  [ {| content := "Budget: $500k." |}; {| content := "No compliance info." |} ].

(** Two earlier turns of a conversation. *)
Definition earlier_turns : list json :=
  [ turn "user" (JString "What is the budget?")
  ; turn "assistant" (JString "The budget is $500k.") ].

(** The document has text and the completion service answers. *)
Definition answering : world :=
  world_with id1 (Some budget) (answer "The budget is $500k.").

(** The analysis finds no paragraph at all. *)
Definition blank : world :=
  world_with id1 (Some []) (answer "The document has no content.").

(** The same report uploaded a second time. *)
Definition second_upload : world :=
  world_with id2 (Some budget) (answer "The budget is $500k.").

(** The completion service is out of quota. *)
Definition failing : world :=
  world_with id1 (Some budget) (Raise (ServiceError "quota exceeded")).

End Demo.


(** ** The upload flow, call by call *)

(** The place of a call in the upload flow, in the order the source makes
    them: store the file, sign the grant, analyse the document, ask the
    completion service. *)
Definition call_rank (ev : event) : nat :=
  match ev with
  | UploadBlob _ _ _ => 0
  | GenerateBlobSas _ => 1
  | AnalyzeDocument _ _ => 2
  | CreateCompletion _ => 3
  end.

(** [sas_url = f"{blob_client.url}?{sas_token}"] for the blob of an upload. *)
Definition sas_url (cfg : config) (w : world) (file : FileStorage) (sas_token : string) : string :=
  blob_url w (AZURE_BLOB_CONTAINER cfg) (storage_key (uuid4 w) (filename file))
  +:+ "?" +:+ sas_token.

(** ** Worlds in which something goes wrong *)

Module Faults.

(** [w] with another storage, analysis and completion behaviour, and
    another clock. *)
Definition rewire (w : world) (now : datetime)
    (store : outcome unit) (analysis : outcome AnalyzeResult)
    (completion : outcome ChatCompletion) : world :=
  {| uuid4 := uuid4 w;
     utcnow := now;
     blob_account_name := blob_account_name w;
     blob_url := blob_url w;
     upload_blob := fun _ _ _ => store;
     generate_blob_sas := generate_blob_sas w;
     begin_analyze_document_from_url := fun _ _ => analysis;
     chat_completions_create := fun _ => completion;
     str_of_value := str_of_value w;
     str_of_builtin := str_of_builtin w;
     str_of_result := str_of_result w;
     stdout_encodes := stdout_encodes w |}.

(** [w] with a process output that encodes nothing beyond ASCII, as under
    the "ascii" codec, whose error text is given. *)
Definition narrow (w : world) (codec_error : string) : world :=
  {| uuid4 := uuid4 w;
     utcnow := utcnow w;
     blob_account_name := blob_account_name w;
     blob_url := blob_url w;
     upload_blob := upload_blob w;
     generate_blob_sas := generate_blob_sas w;
     begin_analyze_document_from_url := begin_analyze_document_from_url w;
     chat_completions_create := chat_completions_create w;
     str_of_value := str_of_value w;
     str_of_builtin := fun e =>
       match e with
       | UnicodeEncodeError => codec_error
       | _ => str_of_builtin w e
       end;
     str_of_result := str_of_result w;
     stdout_encodes := fun _ => false |}.

Definition ascii_codec_error : string :=
  "'ascii' codec can't encode character '\U0001f50d' in position 0: ordinal not in range(128)".

Definition two_paragraphs : outcome AnalyzeResult :=
  Ok {| paragraphs := Some Demo.budget |}.

(** Blob storage refuses the upload. *)
Definition storage_down : world :=
  rewire Demo.answering Demo.new_year (Raise (ServiceError "storage unavailable"))
    two_paragraphs (Demo.answer "The budget is $500k.").

(** The completion service answers without any choice. *)
Definition no_choices : world :=
  rewire Demo.answering Demo.new_year (Ok tt) two_paragraphs (Ok {| choices := [] |}).

(** The completion service offers two choices. *)
Definition two_choices : world :=
  rewire Demo.answering Demo.new_year (Ok tt) two_paragraphs
    (Ok {| choices := [ {| message_content := Some "The budget is $500k." |}
                      ; {| message_content := Some "About half a million." |} ] |}).

(** The completion service returns a choice without content. *)
Definition no_content : world :=
  rewire Demo.answering Demo.new_year (Ok tt) two_paragraphs
    (Ok {| choices := [ {| message_content := None |} ] |}).

(** No paragraph is found, and the process output is ASCII only. *)
Definition blank_on_ascii_stdout : world := narrow Demo.blank ascii_codec_error.

(** The document has text, and the process output is ASCII only. *)
Definition text_on_ascii_stdout : world := narrow Demo.answering ascii_codec_error.

(** The clock stands at [datetime.max]. *)
Definition end_of_time : world :=
  rewire Demo.answering datetime_max (Ok tt) two_paragraphs
    (Demo.answer "The budget is $500k.").

End Faults.

(** ** Proof automation for running the handlers *)

(** Concatenation is allowed to compute on an explicit left operand. *)
#[local] Arguments String.append !_ _ / : simpl nomatch.

Ltac unfold_monad :=
  unfold run, try_except, call, raise; unfold mbind, M_bind, mret, M_ret.

Ltac unfold_handlers :=
  unfold chat, chatbot_query, upload_and_ask, extract_text, followup_chat,
    followup_messages, complete, subscript, dict_get, list_concat,
    multidict_getitem, first_choice.

(** Case analysis on the innermost undecided test of the goal. *)
Ltac step :=
  match goal with
  | |- context [match ?x with _ => _ end] =>
      lazymatch x with
      | context [match _ with _ => _ end] => fail
      | _ => destruct x eqn:?; cbn -[upload_and_analyze String.append]
      end
  end.

(** Membership in an explicit log, one event at a time. *)
Ltac in_log H :=
  repeat first
    [ apply elem_of_nil in H; contradiction
    | apply elem_of_cons in H; destruct H as [H | H]; [ try discriminate H | ] ].

(** * Properties *)

(** ** Facts about strings *)

Section StringFacts.

Lemma str_app_nil_r (a : string) : a +:+ "" = a.
Proof. induction a as [|c a IH]; simpl; [reflexivity | now rewrite IH]. Qed.

Lemma str_app_assoc (a b c : string) : (a +:+ b) +:+ c = a +:+ (b +:+ c).
Proof. induction a as [|x a IH]; simpl; [reflexivity | now rewrite IH]. Qed.

Lemma str_length_app (a b : string) :
  String.length (a +:+ b) = (String.length a + String.length b)%nat.
Proof. induction a as [|x a IH]; simpl; [reflexivity | now rewrite IH]. Qed.

(** Two concatenations whose left parts have the same length agree part
    by part. *)
Lemma str_app_inj_length (a b c d : string) :
  String.length a = String.length b ->
  a +:+ c = b +:+ d -> a = b /\ c = d.
Proof.
  revert b; induction a as [|x a IH]; intros [|y b] Hlen Heq;
    simpl in *; try discriminate.
  - split; [reflexivity | assumption].
  - injection Heq as Hxy Hrest. injection Hlen as Hlen.
    destruct (IH b Hlen Hrest) as [-> ->]. now subst.
Qed.

Lemma str_app_inj_l (p a b : string) : p +:+ a = p +:+ b -> a = b.
Proof.
  induction p as [|x p IH]; simpl; intros H; [assumption |].
  injection H as H. now apply IH.
Qed.

Lemma take_drop_id (n : nat) (s : string) : take n s +:+ drop n s = s.
Proof.
  revert s; induction n as [|n IH]; intros [|c s]; simpl; try reflexivity.
  now rewrite IH.
Qed.

Lemma drop_drop_add (n m : nat) (s : string) :
  drop n (drop m s) = drop (m + n) s.
Proof.
  revert s; induction m as [|m IH]; intros s; simpl; [reflexivity |].
  destruct s as [|c s]; [now destruct n | apply IH].
Qed.

Lemma length_take_le (n : nat) (s : string) :
  (n <= String.length s)%nat -> String.length (take n s) = n.
Proof.
  revert s; induction n as [|n IH]; intros [|c s] H; simpl in *;
    try reflexivity; try lia.
  rewrite IH; [reflexivity | lia].
Qed.

Lemma length_drop_sub (n : nat) (s : string) :
  String.length (drop n s) = (String.length s - n)%nat.
Proof.
  revert s; induction n as [|n IH]; intros [|c s]; simpl; try reflexivity.
  apply IH.
Qed.

End StringFacts.

(** ** How each handler runs *)

Section Runs.

Variable cfg : config.
Variable w : world.

(** The completion step logs its call and yields the first choice. *)
Lemma complete_run (req : completion_request) (log : list event) :
  complete w req log
  = (match chat_completions_create w req with
     | Ok r => match choices r with
               | c :: _ => Ok (message_content c)
               | [] => Raise IndexError
               end
     | Raise e => Raise e
     end, (log ++ [ CreateCompletion req ])%list).
Proof.
  unfold complete, first_choice. unfold_monad.
  destruct (chat_completions_create w req) as [[[|c cs]] | e]; reflexivity.
Qed.

(** The shared upload steps stop at the first one that fails. *)
Lemma upload_and_analyze_run (file : FileStorage) :
  let key := storage_key (uuid4 w) (filename file) in
  let stored := UploadBlob (AZURE_BLOB_CONTAINER cfg) key file in
  let grant := sas_for cfg w key (utcnow w + timedelta_minutes 10) in
  upload_and_analyze cfg w file []
  = match upload_blob w (AZURE_BLOB_CONTAINER cfg) key file with
    | Raise e => (Raise e, [ stored ])
    | Ok _ =>
        if ((0 <=? utcnow w + timedelta_minutes 10)
            && (utcnow w + timedelta_minutes 10 <=? datetime_max))%Z
        then match generate_blob_sas w grant with
             | Raise e => (Raise e, [ stored; GenerateBlobSas grant ])
             | Ok token =>
                 (begin_analyze_document_from_url w "prebuilt-document"
                    (sas_url cfg w file token),
                  [ stored; GenerateBlobSas grant
                  ; AnalyzeDocument "prebuilt-document" (sas_url cfg w file token) ])
             end
        else (Raise OverflowError, [ stored ])
    end.
Proof.
  intros key stored grant. unfold upload_and_analyze, datetime_add, sas_url.
  unfold_monad. fold key. cbn -[String.append storage_key].
  destruct (upload_blob w _ key file) as [[] | e]; [| reflexivity].
  destruct ((0 <=? _) && _)%Z; [| reflexivity].
  fold grant. destruct (generate_blob_sas w grant) as [token | e]; [| reflexivity].
  destruct (begin_analyze_document_from_url w _ _); reflexivity.
Qed.

Lemma upload_and_ask_run (request : form_request) :
  run (upload_and_ask cfg w request)
  = match files request !! "file" with
    | None => (Ok (jsonify "error" (str_exn w (BadRequestKeyError "file")) 500), [])
    | Some file =>
        match form request !! "question" with
        | None =>
            (Ok (jsonify "error" (str_exn w (BadRequestKeyError "question")) 500), [])
        | Some question =>
            match upload_and_analyze cfg w file [] with
            | (Raise e, log) => (Ok (jsonify "error" (str_exn w e) 500), log)
            | (Ok result, log) =>
                match complete w (upload_request cfg (upload_full_text result) question) log with
                | (Ok answer, log') => (Ok (jsonify_content "answer" answer 200), log')
                | (Raise e, log') => (Ok (jsonify "error" (str_exn w e) 500), log')
                end
            end
        end
    end.
Proof.
  unfold upload_and_ask, multidict_getitem. unfold_monad.
  destruct (files request !! "file") as [file|]; [| reflexivity].
  destruct (form request !! "question") as [question|]; [| reflexivity].
  cbn -[upload_and_analyze complete String.append].
  destruct (upload_and_analyze cfg w file []) as [[result | e] log]; [| reflexivity].
  destruct (complete w _ log) as [[answer | e] log']; reflexivity.
Qed.

(** The calls of [upload_and_ask]: those of the upload steps, then the
    completion call if the analysis came back. *)
Lemma upload_and_ask_log (request : form_request) :
  (run (upload_and_ask cfg w request)).2
  = match files request !! "file", form request !! "question" with
    | Some file, Some question =>
        match upload_and_analyze cfg w file [] with
        | (Ok result, log) =>
            (log ++ [ CreateCompletion
                        (upload_request cfg (upload_full_text result) question) ])%list
        | (Raise _, log) => log
        end
    | _, _ => []
    end.
Proof.
  rewrite upload_and_ask_run.
  destruct (files request !! "file") as [file|]; [| reflexivity].
  destruct (form request !! "question") as [question|]; [| reflexivity].
  destruct (upload_and_analyze cfg w file []) as [[result | e] log]; [| reflexivity].
  rewrite complete_run.
  destruct (chat_completions_create w _) as [[[|c cs]] | e]; reflexivity.
Qed.

(** Plain ASCII always prints. *)
Lemma printable_ascii (text : string) :
  all_chars is_ascii text = true -> printable w text = true.
Proof. intros H. unfold printable. now rewrite H. Qed.

(** The texts printed for a missing form key and for an expiry out of
    range are plain ASCII. *)
Lemma error_line_printable (e : exn) :
  (exists key, e = BadRequestKeyError key) \/ e = OverflowError ->
  printable w (error_line w e) = true.
Proof. intros [[key ->] | ->]; apply printable_ascii; reflexivity. Qed.

(** What the [except] block of [extract_text] does with an exception. *)
Lemma extract_text_run (request : form_request) :
  run (extract_text cfg w request)
  = let report := fun (e : exn) (log : list event) =>
        if printable w (error_line w e)
        then (Ok (jsonify "error" (str_exn w e) 500), log)
        else (Raise UnicodeEncodeError, log) in
    match files request !! "file" with
    | None => report (BadRequestKeyError "file") []
    | Some file =>
        match upload_and_analyze cfg w file [] with
        | (Raise e, log) => report e log
        | (Ok result, log) =>
            if printable w (raw_response_line w result)
            then if truthy_paragraphs (paragraphs result)
                 then (Ok (jsonify "text" (extract_full_text result) 200), log)
                 else (Ok (jsonify "error" "No text extracted from document" 400), log)
            else report UnicodeEncodeError log
        end
    end.
Proof.
  unfold extract_text, multidict_getitem, print. unfold_monad. cbv zeta.
  destruct (files request !! "file") as [file|].
  - cbn -[upload_and_analyze String.append printable].
    destruct (upload_and_analyze cfg w file []) as [[result | e] log].
    + destruct (printable w (raw_response_line w result));
        [destruct (truthy_paragraphs (paragraphs result)); reflexivity |].
      destruct (printable w (error_line w UnicodeEncodeError)); reflexivity.
    + destruct (printable w (error_line w e)); reflexivity.
  - cbn -[String.append printable].
    destruct (printable w (error_line w (BadRequestKeyError "file"))); reflexivity.
Qed.

(** The calls of [extract_text] are those of the upload steps. *)
Lemma extract_text_log (request : form_request) :
  (run (extract_text cfg w request)).2
  = match files request !! "file" with
    | Some file => (upload_and_analyze cfg w file []).2
    | None => []
    end.
Proof.
  rewrite extract_text_run. cbv zeta.
  destruct (files request !! "file") as [file|].
  - destruct (upload_and_analyze cfg w file []) as [[result | e] log]; cbn [snd];
      repeat match goal with
             | |- context [if ?c then _ else _] => destruct c
             end; reflexivity.
  - destruct (printable w _); reflexivity.
Qed.

Lemma followup_chat_run (data : json) :
  run (followup_chat cfg w data)
  = match data with
    | JObject fields =>
        match fields !! "doc" with
        | None => (Ok (jsonify "error" (str_exn w (KeyError "doc")) 500), [])
        | Some doc =>
            match fields !! "history" with
            | None => (Ok (jsonify "error" (str_exn w (KeyError "history")) 500), [])
            | Some (JArray history) =>
                match complete w (followup_request cfg
                        (turn "system" (JString prompt_intro)
                         :: turn "system" doc :: history)) [] with
                | (Ok answer, log) => (Ok (jsonify_content "answer" answer 200), log)
                | (Raise e, log) => (Ok (jsonify "error" (str_exn w e) 500), log)
                end
            | Some other => (Ok (jsonify "error" (str_exn w (TypeError other)) 500), [])
            end
        end
    | _ => (Ok (jsonify "error" (str_exn w (TypeError data)) 500), [])
    end.
Proof.
  unfold followup_chat, followup_messages, subscript, list_concat. unfold_monad.
  destruct data as [| | | | |fields]; try reflexivity.
  destruct (fields !! "doc") as [doc|]; [| reflexivity].
  destruct (fields !! "history") as [[| | | |history|]|]; try reflexivity.
  cbn -[complete String.append].
  destruct (complete w _ []) as [[answer | e] log]; reflexivity.
Qed.

Lemma chat_run (request_json : json) :
  run (chat cfg w request_json)
  = match request_json with
    | JObject fields =>
        let user_input := default (JString "") (fields !! "message") in
        (Ok (jsonify_content "response"
               match chat_completions_create w (chatbot_request cfg w user_input) with
               | Ok r => match choices r with
                         | c :: _ => message_content c
                         | [] => Some ("Error retrieving insights: " +:+ str_exn w IndexError)
                         end
               | Raise e => Some ("Error retrieving insights: " +:+ str_exn w e)
               end 200),
         [ CreateCompletion (chatbot_request cfg w user_input) ])
    | _ => (Raise (AttributeError request_json "get"), [])
    end.
Proof.
  unfold chat, chatbot_query, dict_get. unfold_monad.
  destruct request_json as [| | | | |fields]; try reflexivity.
  cbn -[complete String.append]. rewrite complete_run.
  destruct (chat_completions_create w _) as [[[|c cs]] | e]; reflexivity.
Qed.

End Runs.

(** ** Storage keys *)

Section StorageKeys.

Import Uuid.

Lemma hex_digit_inj (a b : Z) :
  0 <= a < 16 -> 0 <= b < 16 -> hex_digit a = hex_digit b -> a = b.
Proof.
  intros Ha Hb H. unfold hex_digit in H.
  apply (f_equal nat_of_ascii) in H.
  rewrite !nat_ascii_embedding in H
    by (destruct (a <? 10)%Z, (b <? 10)%Z; lia).
  apply Z2Nat.inj in H;
    [| destruct (a <? 10)%Z; lia | destruct (b <? 10)%Z; lia].
  destruct (Z.ltb_spec a 10), (Z.ltb_spec b 10); lia.
Qed.

Lemma hex_fixed_length (k : nat) (n : Z) : String.length (hex_fixed k n) = k.
Proof.
  revert n; induction k as [|k IH]; intros n; simpl; [reflexivity |].
  rewrite str_length_app, IH. simpl. lia.
Qed.

(** Fixed-width hexadecimal notation determines the number. *)
Lemma hex_fixed_inj (k : nat) (n m : Z) :
  0 <= n < 16 ^ Z.of_nat k -> 0 <= m < 16 ^ Z.of_nat k ->
  hex_fixed k n = hex_fixed k m -> n = m.
Proof.
  revert n m; induction k as [|k IH]; intros n m Hn Hm H.
  - simpl in Hn, Hm. lia.
  - rewrite Nat2Z.inj_succ, Z.pow_succ_r in Hn, Hm by lia.
    simpl in H.
    apply str_app_inj_length in H; [| now rewrite !hex_fixed_length].
    destruct H as [Hhigh Hlow]. injection Hlow as Hlow.
    apply hex_digit_inj in Hlow; try (apply Z.mod_pos_bound; lia).
    apply IH in Hhigh;
      try (split; [apply Z.div_pos; lia | apply Z.div_lt_upper_bound; lia]).
    rewrite (Z.div_mod n 16), (Z.div_mod m 16) by lia. congruence.
Qed.

(** The five groups of [str] put the 32 digits back together. *)
Lemma hex_regroup (h : string) :
  take 8 h +:+ slice 8 12 h +:+ slice 12 16 h +:+ slice 16 20 h +:+ drop 20 h = h.
Proof.
  unfold slice. simpl Nat.sub.
  change (drop 20 h) with (drop (16 + 4) h).
  rewrite <- (drop_drop_add 4 16 h), take_drop_id.
  change (drop 16 h) with (drop (12 + 4) h).
  rewrite <- (drop_drop_add 4 12 h), take_drop_id.
  change (drop 12 h) with (drop (8 + 4) h).
  rewrite <- (drop_drop_add 4 8 h), take_drop_id.
  apply take_drop_id.
Qed.

Lemma length_slice (a b : nat) (h : string) :
  (b <= String.length h)%nat -> (a <= b)%nat ->
  String.length (slice a b h) = (b - a)%nat.
Proof.
  intros Hb Hab. unfold slice.
  apply length_take_le. rewrite length_drop_sub. lia.
Qed.

Lemma grouped_inj (h k : string) :
  String.length h = 32%nat -> String.length k = 32%nat ->
  grouped h = grouped k -> h = k.
Proof.
  intros Lh Lk H. unfold grouped in H.
  apply str_app_inj_length in H;
    [| rewrite !length_take_le by lia; reflexivity].
  destruct H as [H1 H]. apply str_app_inj_l in H.
  apply str_app_inj_length in H;
    [| rewrite !length_slice by lia; reflexivity].
  destruct H as [H2 H]. apply str_app_inj_l in H.
  apply str_app_inj_length in H;
    [| rewrite !length_slice by lia; reflexivity].
  destruct H as [H3 H]. apply str_app_inj_l in H.
  apply str_app_inj_length in H;
    [| rewrite !length_slice by lia; reflexivity].
  destruct H as [H4 H]. apply str_app_inj_l in H.
  rewrite <- (hex_regroup h), <- (hex_regroup k). congruence.
Qed.

Lemma str_inj (u v : UUID) : valid u -> valid v -> str u = str v -> u = v.
Proof.
  intros Hu Hv H. destruct u as [n], v as [m]. unfold valid in Hu, Hv.
  cbn [int] in Hu, Hv. f_equal.
  apply (hex_fixed_inj 32); try assumption.
  apply grouped_inj; [apply hex_fixed_length .. | exact H].
Qed.

Lemma str_length (u : UUID) : String.length (str u) = 36%nat.
Proof.
  unfold str, grouped. pose proof (hex_fixed_length 32 (int u)) as L.
  set (h := hex_fixed 32 (int u)) in *.
  rewrite !str_length_app, length_take_le, !length_slice, length_drop_sub by lia.
  rewrite L. reflexivity.
Qed.

End StorageKeys.

Lemma storage_key_inj (u1 u2 : Uuid.UUID) (name1 name2 : string) :
  Uuid.valid u1 -> Uuid.valid u2 ->
  storage_key u1 name1 = storage_key u2 name2 -> u1 = u2.
Proof.
  intros V1 V2 Heq. unfold storage_key in Heq.
  apply str_app_inj_length in Heq; [| now rewrite !str_length].
  now apply str_inj.
Qed.

Example storage_key_sample :
  storage_key {| Uuid.int := Demo.id1 |} "report.pdf"
  = "123e4567-e89b-42d3-a456-426614174000_report.pdf".
Proof. vm_compute. reflexivity. Qed.

(** The first call of an upload stores the file under its storage key. *)
Lemma upload_stores_under_key (cfg : config) (w : world) (file : FileStorage) :
  (upload_and_analyze cfg w file []).2 !! 0%nat
  = Some (UploadBlob (AZURE_BLOB_CONTAINER cfg)
            (storage_key (uuid4 w) (filename file)) file).
Proof.
  unfold upload_and_analyze, datetime_add, call, raise.
  unfold mbind, M_bind, mret, M_ret. cbn -[String.append storage_key].
  repeat match goal with
  | |- context [match ?x with _ => _ end] =>
      lazymatch x with
      | context [match _ with _ => _ end] => fail
      | _ => destruct x; cbn -[String.append storage_key]
      end
  end; reflexivity.
Qed.

(** C8. Two uploads that drew distinct identifiers store their files under
    distinct keys, whatever the original file names, identical names
    included: each key is the identifier's text, an underscore and the
    original name. *)
Theorem upload_keys_distinct (cfg : config) (w1 w2 : world) (file1 file2 : FileStorage) :
  Uuid.valid (uuid4 w1) -> Uuid.valid (uuid4 w2) -> uuid4 w1 <> uuid4 w2 ->
  exists key1 key2,
    (upload_and_analyze cfg w1 file1 []).2 !! 0%nat
    = Some (UploadBlob (AZURE_BLOB_CONTAINER cfg) key1 file1)
    /\ (upload_and_analyze cfg w2 file2 []).2 !! 0%nat
       = Some (UploadBlob (AZURE_BLOB_CONTAINER cfg) key2 file2)
    /\ key1 = Uuid.str (uuid4 w1) +:+ "_" +:+ filename file1
    /\ key2 = Uuid.str (uuid4 w2) +:+ "_" +:+ filename file2
    /\ key1 <> key2.
Proof.
  intros V1 V2 Hne.
  exists (storage_key (uuid4 w1) (filename file1)),
         (storage_key (uuid4 w2) (filename file2)).
  repeat split; try apply upload_stores_under_key.
  intros Heq. apply Hne. eapply storage_key_inj; eassumption.
Qed.

Lemma upload_keys_distinct_witness :
  exists key1 key2,
    (upload_and_analyze Demo.cfg Demo.answering Demo.report []).2 !! 0%nat
    = Some (UploadBlob (Some "uploads") key1 Demo.report)
    /\ (upload_and_analyze Demo.cfg Demo.second_upload Demo.report []).2 !! 0%nat
       = Some (UploadBlob (Some "uploads") key2 Demo.report)
    /\ key1 = Uuid.str {| Uuid.int := Demo.id1 |} +:+ "_" +:+ "report.pdf"
    /\ key2 = Uuid.str {| Uuid.int := Demo.id2 |} +:+ "_" +:+ "report.pdf"
    /\ key1 <> key2.
Proof.
  apply (upload_keys_distinct Demo.cfg Demo.answering Demo.second_upload
           Demo.report Demo.report).
  - unfold Uuid.valid. vm_compute. split; [discriminate | reflexivity].
  - unfold Uuid.valid. vm_compute. split; [discriminate | reflexivity].
  - intros H. apply (f_equal Uuid.int) in H. vm_compute in H. discriminate H.
Defined.

(** ** The document body *)

Section DocumentBody.

Lemma join_two (sep x y : string) (rest : list string) :
  join sep (x :: y :: rest) = x +:+ sep +:+ join sep (y :: rest).
Proof. reflexivity. Qed.

(** A prefix of the first item can be moved out of the join. *)
Lemma join_absorb (sep a b : string) (rest : list string) :
  join sep ((a +:+ b) :: rest) = a +:+ join sep (b :: rest).
Proof.
  destruct rest as [|c rest]; [reflexivity |].
  rewrite !join_two. apply str_app_assoc.
Qed.

Lemma spaced_concat_join (contents : list string) :
  spaced_concat contents = join " " contents.
Proof.
  destruct contents as [|first others]; [reflexivity |].
  unfold spaced_concat. revert first.
  induction others as [|c others IH]; intros first; [reflexivity |].
  cbn [fold_left]. rewrite IH, join_absorb, join_absorb. reflexivity.
Qed.

Lemma join_length (contents : list string) :
  String.length (join " " contents)
  = (total_length contents + (length contents - 1))%nat.
Proof.
  induction contents as [|x rest IH]; [reflexivity |].
  destruct rest as [|y rest].
  - simpl. lia.
  - rewrite join_two, !str_length_app, IH. simpl. lia.
Qed.

End DocumentBody.

(** C6. For a non-empty list of extracted paragraphs the document body, in
    [upload_and_ask] as in [extract_text], is the paragraph contents in the
    order returned with one space between consecutive ones; it has exactly
    the characters of the contents plus one per gap. *)
Theorem body_is_spaced_concat (ps : list DocumentParagraph) :
  ps <> [] ->
  upload_full_text {| paragraphs := Some ps |} = spaced_concat (map content ps)
  /\ extract_full_text {| paragraphs := Some ps |} = spaced_concat (map content ps)
  /\ String.length (spaced_concat (map content ps))
     = (total_length (map content ps) + (length ps - 1))%nat.
Proof.
  intros Hne. rewrite spaced_concat_join, join_length, length_map.
  destruct ps as [|p ps]; [contradiction |].
  unfold upload_full_text, extract_full_text. cbn [paragraphs truthy_paragraphs].
  auto.
Qed.

Lemma body_is_spaced_concat_witness :
  upload_full_text {| paragraphs := Some Demo.budget |}
  = "Budget: $500k. No compliance info.".
Proof.
  destruct (body_is_spaced_concat Demo.budget) as [H _]; [discriminate |].
  rewrite H. reflexivity.
Defined.

(** C2. When the analysis reports no paragraphs ([None] or an empty list),
    the document body of [upload_and_ask] is the sentinel "No content
    found", which is not the empty string. *)
Theorem empty_body_is_sentinel (result : AnalyzeResult) :
  paragraphs result = None \/ paragraphs result = Some [] ->
  upload_full_text result = "No content found"
  /\ upload_full_text result <> "".
Proof.
  intros [H | H]; unfold upload_full_text; rewrite H; cbn; split;
    (reflexivity || discriminate).
Qed.

Lemma empty_body_is_sentinel_witness :
  upload_full_text {| paragraphs := Some [] |} = "No content found"
  /\ upload_full_text {| paragraphs := Some [] |} <> "".
Proof. apply empty_body_is_sentinel. right. reflexivity. Defined.

Section Search.

Lemma startswith_app (p r : string) : startswith p (p +:+ r) = true.
Proof.
  induction p as [|c p IH]; simpl; [reflexivity |]. now rewrite Ascii.eqb_refl.
Qed.

Lemma find_from_unfold (off : nat) (p s : string) :
  find_from off p s
  = if startswith p s then Some off
    else match s with
         | "" => None
         | String _ s' => find_from (S off) p s'
         end.
Proof. destruct s; reflexivity. Qed.

Lemma find_from_app (p a b : string) (off : nat) :
  exists i, find_from off p (a +:+ p +:+ b) = Some i.
Proof.
  revert off; induction a as [|c a IH]; intros off; rewrite find_from_unfold.
  - simpl. rewrite startswith_app. now exists off.
  - destruct (startswith p _); [now exists off |]. simpl. apply IH.
Qed.

(** Whatever is pasted into a template occurs in the result. *)
Lemma contains_app (p a b : string) : contains p (a +:+ p +:+ b) = true.
Proof.
  unfold contains, find. destruct (find_from_app p a b 0) as [i ->]. reflexivity.
Qed.

End Search.

(** ** Access grants *)

(** The log of the shared upload steps holds at most one grant, the one
    built by [sas_for] with the clock reading plus ten minutes. *)
Lemma upload_and_analyze_grant (cfg : config) (w : world) (file : FileStorage)
    (grant : Sas.args) :
  GenerateBlobSas grant ∈ (upload_and_analyze cfg w file []).2 ->
  grant = sas_for cfg w (storage_key (uuid4 w) (filename file))
            (utcnow w + timedelta_minutes 10).
Proof.
  unfold upload_and_analyze, datetime_add. unfold_monad. cbn.
  repeat step; intros H; in_log H; congruence.
Qed.

(** C5. Every access grant issued while serving an upload (by
    [upload_and_ask] or by [extract_text]) expires ten minutes after the
    clock reading of that request, hence strictly later, and permits
    reading only: no write, no delete, nor any other flag. *)
Theorem grant_expiry_and_scope (cfg : config) (w : world) (request : form_request)
    (grant : Sas.args) :
  GenerateBlobSas grant ∈ (run (upload_and_ask cfg w request)).2
  \/ GenerateBlobSas grant ∈ (run (extract_text cfg w request)).2 ->
  Sas.expiry grant = utcnow w + timedelta_minutes 10
  /\ timedelta_minutes 10 = 10 * 60 * 1000000
  /\ utcnow w < Sas.expiry grant
  /\ Sas.read (Sas.permission grant) = true
  /\ Sas.write (Sas.permission grant) = false
  /\ Sas.delete (Sas.permission grant) = false
  /\ Sas.permission grant = Sas.with_read true.
Proof.
  intros H.
  assert (exists file, GenerateBlobSas grant ∈ (upload_and_analyze cfg w file []).2)
    as [file Hin].
  { destruct H as [H | H].
    - rewrite upload_and_ask_log in H.
      destruct (files request !! "file") as [file|]; [| in_log H].
      destruct (form request !! "question") as [question|]; [| in_log H].
      exists file.
      destruct (upload_and_analyze cfg w file []) as [[result | e] log];
        [| exact H].
      apply elem_of_app in H as [H | H]; [exact H | in_log H].
    - rewrite extract_text_log in H.
      destruct (files request !! "file") as [file|]; [| in_log H].
      now exists file. }
  apply upload_and_analyze_grant in Hin. subst grant. cbn.
  unfold timedelta_minutes. repeat split; try reflexivity; lia.
Qed.

Lemma grant_expiry_and_scope_witness :
  let grant := sas_for Demo.cfg Demo.answering
                 "123e4567-e89b-42d3-a456-426614174000_report.pdf"
                 (Demo.new_year + 600000000) in
  Sas.expiry grant = Demo.new_year + timedelta_minutes 10
  /\ timedelta_minutes 10 = 10 * 60 * 1000000
  /\ Demo.new_year < Sas.expiry grant
  /\ Sas.read (Sas.permission grant) = true
  /\ Sas.write (Sas.permission grant) = false
  /\ Sas.delete (Sas.permission grant) = false
  /\ Sas.permission grant = Sas.with_read true.
Proof.
  intros grant.
  apply (grant_expiry_and_scope Demo.cfg Demo.answering (Demo.ask "What is the budget?")).
  left. vm_compute. apply list_elem_of_further, list_elem_of_here.
Defined.

(** ** Follow-up chat *)

(** C1. For a follow-up request whose body carries a document [doc] and a
    list [history], the completion service is called once, and the turns it
    receives are a turn of role "system" whose content is the fixed
    instruction block, a turn of role "system" whose content is [doc], and
    then [history] as it came: same turns, same order.  With an empty
    history these are exactly the two system turns. *)
Theorem followup_turns (cfg : config) (w : world) (fields : gmap string json)
    (doc : json) (history : list json) :
  fields !! "doc" = Some doc ->
  fields !! "history" = Some (JArray history) ->
  let instruction_turn :=
    JObject (<[ "role" := JString "system" ]>
      {[ "content" := JString (lines
           [ ""
            ; ""
            ; "        You are an AI assistant analyzing uploaded business documents."
            ; "        First, summarize key content(include problem trying to solve/address). Then extract:"
            ; "        - Technology Specs"
            ; "        -User numbers and deployment scale"
            ; "        -Current systems and pain points"
            ; "        - Action Items for proposal team"
            ; "        - Required integrations"
            ; "        - If suggesting BOM items, explain why they match the requirements"
            ; "        - Compliance requirements"
            ; "        -conclusive summary"
            ; "        If any section is missing, respond with: " +:+ dquote +:+ "This document does not contain information on [Missing Section]." +:+ dquote
            ; "        Respond clearly and conversationally."
            ; ""
            ; "        " ]) ]}) in
  let document_turn :=
    JObject (<[ "role" := JString "system" ]> {[ "content" := doc ]}) in
  exists req,
    (run (followup_chat cfg w (JObject fields))).2 = [ CreateCompletion req ]
    /\ messages req = instruction_turn :: document_turn :: history
    /\ (history = [] -> messages req = [ instruction_turn; document_turn ]).
Proof.
  intros Hdoc Hhist instruction_turn document_turn.
  exists (followup_request cfg (instruction_turn :: document_turn :: history)).
  split; [| split; [reflexivity | now intros ->]].
  rewrite followup_chat_run, Hdoc, Hhist, complete_run.
  destruct (chat_completions_create w _) as [[[|c cs]] | e]; reflexivity.
Qed.

Lemma followup_turns_witness :
  exists req,
    (run (followup_chat Demo.cfg Demo.answering
            (JObject (<[ "doc" := JString "Budget: $500k." ]>
                        {[ "history" := JArray Demo.earlier_turns ]})))).2
    = [ CreateCompletion req ]
    /\ length (messages req) = 4%nat
    /\ messages req !! 1%nat
       = Some (JObject (<[ "role" := JString "system" ]>
                          {[ "content" := JString "Budget: $500k." ]}))
    /\ skipn 2 (messages req) = Demo.earlier_turns.
Proof.
  destruct (followup_turns Demo.cfg Demo.answering
              (<[ "doc" := JString "Budget: $500k." ]>
                 {[ "history" := JArray Demo.earlier_turns ]})
              (JString "Budget: $500k.") Demo.earlier_turns)
    as (req & Hlog & Hturns & _); [reflexivity | reflexivity |].
  exists req. rewrite Hturns. repeat split; assumption.
Defined.

(** A body without "history" never reaches the completion service: the
    [KeyError] becomes the error payload, with status 500. *)
Example followup_without_history :
  run (followup_chat Demo.cfg Demo.answering
         (JObject {[ "doc" := JString "Budget: $500k." ]}))
  = (Ok (jsonify "error" (str_exn Demo.answering (KeyError "history")) 500), []).
Proof. reflexivity. Qed.

(** ** Indexed chat *)

(** C4, as the code has it.  For every JSON object sent to the indexed
    chat operation the caller receives a payload [{response: value}] with
    status 200, after exactly one completion call.  When that call raises,
    the value is the string "Error retrieving insights: " followed by the
    exception's message, and nothing propagates; when it returns, the
    value is the content of the first choice, which is a string, or null
    if the choice has no content; an answer without any choice gives the
    error string of the [IndexError]. *)
Theorem chat_always_responds (cfg : config) (w : world) (fields : gmap string json) :
  exists req value,
    run (chat cfg w (JObject fields))
    = (Ok {| body := JObject {[ "response" := value ]}; status := 200 |},
       [ CreateCompletion req ])
    /\ (forall e,
          chat_completions_create w req = Raise e ->
          value = JString ("Error retrieving insights: " +:+ str_exn w e))
    /\ (forall r,
          chat_completions_create w req = Ok r ->
          value = match choices r with
                  | c :: _ =>
                      match message_content c with
                      | Some text => JString text
                      | None => JNull
                      end
                  | [] => JString "Error retrieving insights: list index out of range"
                  end).
Proof.
  rewrite chat_run. cbv zeta. eexists _, _. split; [reflexivity |].
  destruct (chat_completions_create w _) as [[[|c cs]] | e]; split;
    intros x [= <-]; reflexivity.
Qed.

Lemma chat_always_responds_witness :
  exists req value,
    run (chat Demo.cfg Demo.failing
           (JObject {[ "message" := JString "Summarize the proposal" ]}))
    = (Ok {| body := JObject {[ "response" := value ]}; status := 200 |},
       [ CreateCompletion req ])
    /\ value = JString "Error retrieving insights: quota exceeded".
Proof.
  destruct (chat_always_responds Demo.cfg Demo.failing
              {[ "message" := JString "Summarize the proposal" ]})
    as (req & value & Hrun & Herr & _).
  exists req, value. split; [exact Hrun |].
  apply (Herr (ServiceError "quota exceeded")). reflexivity.
Defined.

(** C4, as stated, fails twice over.  A body that is a JSON array makes
    [request.json.get] raise in [chat] itself, where nothing catches it,
    so no payload is returned at all; and for an object body, a completion
    whose first choice has no content is answered with [{response: null}],
    which is not a string. *)
Lemma chat_without_a_string :
  run (chat Demo.cfg Demo.answering (JArray []))
  = (Raise (AttributeError (JArray []) "get"), [])
  /\ (run (chat Demo.cfg Faults.no_content
             (JObject {[ "message" := JString "Summarize the proposal" ]}))).1
     = Ok {| body := JObject {[ "response" := JNull ]}; status := 200 |}.
Proof. split; vm_compute; reflexivity. Qed.

(** C10, as the code has it.  A JSON object without a "message" field
    does not make the indexed chat operation fail: the query is the empty
    string, the user turn sent to the completion service is the prompt
    template with nothing after "User query: ", and the caller receives a
    payload [{response: value}] with status 200.  The value is a string,
    except that it is null exactly when the completion's first choice has
    no content. *)
Theorem chat_without_message (cfg : config) (w : world) (fields : gmap string json) :
  fields !! "message" = None ->
  exists req value,
    run (chat cfg w (JObject fields))
    = (Ok {| body := JObject {[ "response" := value ]}; status := 200 |},
       [ CreateCompletion req ])
    /\ messages req
       = [ JObject (<[ "role" := JString "system" ]>
                      {[ "content" := JString "You answer using Azure Cognitive Search." ]})
         ; JObject (<[ "role" := JString "user" ]>
                      {[ "content" := JString (lines
           [ ""
            ; "      You are an AI assistant helping users engage with business documents."
            ; "      User query: "
            ; ""
            ; "    Always provide specific, relevant information      "
            ; "      First, give a general summary(Include scope & purpose). Then extract , focus on these:"
            ; "      - Technology Specs"
            ; "      - Problem being addressed"
            ; "        -User numbers and deployment scale"
            ; "        -Current systems and pain points"
            ; "        - Action Items for proposal team"
            ; "        - Required integrations"
            ; "        - If suggesting BOM items, explain why they match the requirements"
            ; "        If any section is missing, respond with: " +:+ dquote +:+ "This document does not contain information on [Missing Section]." +:+ dquote
            ; ""
            ; "        Respond clearly and conversationally."
            ; "    " ]) ]}) ]
    /\ ((exists text, value = JString text)
        \/ value = JNull
           /\ exists r c cs,
                chat_completions_create w req = Ok r
                /\ choices r = c :: cs /\ message_content c = None).
Proof.
  intros Hmissing. rewrite chat_run. cbv zeta. rewrite Hmissing. cbn [default].
  eexists _, _. split; [reflexivity |]. split; [reflexivity |].
  destruct (chat_completions_create w _) as [[[|[[text|]] cs]] | e] eqn:E; cbn;
    try (left; eexists; reflexivity).
  right. split; [reflexivity |]. now eexists _, _, cs.
Qed.

Lemma chat_without_message_witness :
  exists req value,
    run (chat Demo.cfg Demo.answering (JObject ∅))
    = (Ok {| body := JObject {[ "response" := value ]}; status := 200 |},
       [ CreateCompletion req ])
    /\ length (messages req) = 2%nat.
Proof.
  destruct (chat_without_message Demo.cfg Demo.answering ∅)
    as (req & value & Hrun & Hturns & _); [reflexivity |].
  exists req, value. split; [exact Hrun | now rewrite Hturns].
Defined.

(** C10, as stated, fails: for the body [{}] and a completion whose first
    choice has no content, the payload is [{response: null}], not a
    string. *)
Lemma chat_without_message_null :
  (∅ : gmap string json) !! "message" = None
  /\ (run (chat Demo.cfg Faults.no_content (JObject ∅))).1
     = Ok {| body := JObject {[ "response" := JNull ]}; status := 200 |}.
Proof. split; vm_compute; reflexivity. Qed.

Example chat_without_message_sample :
  (run (chat Demo.cfg Demo.answering (JObject ∅))).1
  = Ok (jsonify "response" "The budget is $500k." 200).
Proof. reflexivity. Qed.

(** A body that is not an object is outside the [{message: string}]
    interface: [request.json.get] then raises in [chat] itself, where
    nothing catches it. *)
Example chat_array_body_raises :
  run (chat Demo.cfg Demo.answering (JArray []))
  = (Raise (AttributeError (JArray []) "get"), []).
Proof. reflexivity. Qed.

(** ** Text extraction *)

(** C9 fails on the code.  The same upload, for which the analysis finds
    no paragraph, is answered with the 400 of the claim when the process
    output takes every character, and with a 500 when it is ASCII only:
    the debugging [print] that precedes the check then raises inside the
    [try], and the [except] block reports its [UnicodeEncodeError] like an
    upstream failure. *)
Theorem extract_text_debug_print_breaks_400 :
  run (extract_text Demo.cfg Demo.blank (Demo.ask "What is the budget?"))
  = (Ok {| body := JObject {[ "error" := JString "No text extracted from document" ]};
           status := 400 |},
     (upload_and_analyze Demo.cfg Demo.blank Demo.report []).2)
  /\ run (extract_text Demo.cfg Faults.blank_on_ascii_stdout
            (Demo.ask "What is the budget?"))
     = (Ok {| body := JObject {[ "error" := JString Faults.ascii_codec_error ]};
              status := 500 |},
        (upload_and_analyze Demo.cfg Demo.blank Demo.report []).2)
  /\ begin_analyze_document_from_url Faults.blank_on_ascii_stdout
       "prebuilt-document" (sas_url Demo.cfg Demo.blank Demo.report "sig=abc")
     = Ok {| paragraphs := Some [] |}.
Proof. repeat split; vm_compute; reflexivity. Qed.

Example extract_text_sample :
  (run (extract_text Demo.cfg Demo.answering (Demo.ask "What is the budget?"))).1
  = Ok (jsonify "text" "Budget: $500k. No compliance info." 200).
Proof. reflexivity. Qed.

(** ** Upload and ask *)

(** C3, as the code has it.  [upload_and_ask] consults no empty-result
    indicator: when the analysis reports no paragraphs the sentinel "No
    content found" takes the place of the document body in the user prompt,
    and that prompt is sent to the completion service. *)
Theorem sentinel_is_embedded (cfg : config) (w : world) (request : form_request)
    (file : FileStorage) (question : string) (result : AnalyzeResult)
    (log : list event) :
  files request !! "file" = Some file ->
  form request !! "question" = Some question ->
  upload_and_analyze cfg w file [] = (Ok result, log) ->
  truthy_paragraphs (paragraphs result) = false ->
  (run (upload_and_ask cfg w request)).2
  = (log ++ [ CreateCompletion (upload_request cfg "No content found" question) ])%list
  /\ messages (upload_request cfg "No content found" question)
     = [ turn "system" (JString "You are an AI document assistant.")
       ; turn "user" (JString (lines upload_head +:+ "No content found"
                               +:+ lines upload_mid +:+ question
                               +:+ lines upload_tail)) ]
  /\ contains "No content found" (upload_prompt "No content found" question) = true.
Proof.
  intros Hfile Hq Hrun Hempty. split; [| split].
  - unfold_handlers. rewrite Hfile, Hq. unfold_monad. rewrite Hrun.
    unfold upload_full_text. rewrite Hempty.
    repeat step; reflexivity.
  - reflexivity.
  - apply contains_app.
Qed.

Lemma sentinel_is_embedded_witness :
  (run (upload_and_ask Demo.cfg Demo.blank (Demo.ask "What is the budget?"))).2
  = ((upload_and_analyze Demo.cfg Demo.blank Demo.report []).2
     ++ [ CreateCompletion
            (upload_request Demo.cfg "No content found" "What is the budget?") ])%list.
Proof.
  refine (proj1 (sentinel_is_embedded Demo.cfg Demo.blank
                   (Demo.ask "What is the budget?") Demo.report
                   "What is the budget?" {| paragraphs := Some [] |}
                   (upload_and_analyze Demo.cfg Demo.blank Demo.report []).2
                   _ _ _ _)); reflexivity.
Defined.

(** C3, as stated, fails: a report without any paragraph is uploaded with
    the question "What is the budget?"; the fourth call of the request is
    the completion call, its user turn has the sentinel where the document
    body belongs, and the caller gets an ordinary answer. *)
Lemma sentinel_grounds_prompt :
  truthy_paragraphs (Some []) = false
  /\ (run (upload_and_ask Demo.cfg Demo.blank (Demo.ask "What is the budget?"))).1
     = Ok (jsonify "answer" "The document has no content." 200)
  /\ (run (upload_and_ask Demo.cfg Demo.blank (Demo.ask "What is the budget?"))).2 !! 3%nat
     = Some (CreateCompletion
               (upload_request Demo.cfg "No content found" "What is the budget?"))
  /\ messages (upload_request Demo.cfg "No content found" "What is the budget?") !! 1%nat
     = Some (turn "user" (JString
         (lines [ ""
                ; "        The user uploaded this document:"
                ; "        No content found"
                ; ""
                ; "        They asked:"
                ; "        What is the budget?"
                ; ""
                ; "        Please answer using only the document's contents."
                ; "        " ]))).
Proof. repeat split; vm_compute; reflexivity. Qed.

(** ** The single-shot retrieval prompt *)

(** C7, as the code has it.  The user turn of the indexed chat is a fixed
    preamble ending in "User query: ", then the literal query, then the
    fixed instruction block: the summary-first sentence, the section
    labels and the missing-section policy, in this order.  Neither fixed
    part depends on the query. *)
Theorem chatbot_prompt_layout (cfg : config) (w : world) (query : string) :
  messages (chatbot_request cfg w (JString query)) !! 1%nat
  = Some (turn "user"
            (JString (lines chatbot_head +:+ query +:+ lines chatbot_tail)))
  /\ endswith "User query: " (lines chatbot_head) = true
  /\ in_order single_shot_block (lines chatbot_tail) = true
  /\ contains query (chatbot_prompt w (JString query)) = true.
Proof.
  split; [reflexivity |]. split; [vm_compute; reflexivity |].
  split; [vm_compute; reflexivity |]. apply contains_app.
Qed.

(** C7, as stated, fails: for the query "Summarize the proposal" the
    prompt does not end with the query; the query starts at character 95,
    before the instruction block, whose first sentence starts at character
    181, and the prompt ends with the block's last line. *)
Lemma query_precedes_instructions :
  endswith "Summarize the proposal"
    (chatbot_prompt Demo.answering (JString "Summarize the proposal")) = false
  /\ find "Summarize the proposal"
       (chatbot_prompt Demo.answering (JString "Summarize the proposal")) = Some 95%nat
  /\ find "First, give a general summary"
       (chatbot_prompt Demo.answering (JString "Summarize the proposal")) = Some 181%nat
  /\ endswith (lines [ "        Respond clearly and conversationally."; "    " ])
       (chatbot_prompt Demo.answering (JString "Summarize the proposal")) = true.
Proof. repeat split; vm_compute; reflexivity. Qed.

(** ** The order of the external calls *)

Section CallOrder.

Variable cfg : config.
Variable w : world.

(** The shared upload steps make their calls in the order store, sign,
    analyse, each at most once, and never reach the completion service. *)
Lemma upload_and_analyze_ranked (file : FileStorage) (i : nat) (ev : event) :
  (upload_and_analyze cfg w file []).2 !! i = Some ev ->
  call_rank ev = i /\ (i < 3)%nat.
Proof.
  rewrite upload_and_analyze_run. cbv zeta.
  repeat step; destruct i as [|[|[|i]]]; cbn; intros [= <-]; split; (reflexivity || lia).
Qed.

(** When they succeed, all three calls were made. *)
Lemma upload_and_analyze_ok_length (file : FileStorage) (result : AnalyzeResult)
    (log : list event) :
  upload_and_analyze cfg w file [] = (Ok result, log) -> length log = 3%nat.
Proof.
  rewrite upload_and_analyze_run. cbv zeta.
  repeat step; intros H; inversion H; reflexivity.
Qed.

End CallOrder.

(** X4. The calls of [upload_and_ask] come in one fixed order: the i-th
    call of a request is the store for i = 0, the signing for i = 1, the
    analysis for i = 2 and the completion for i = 3; none is repeated and
    there is no fifth call. *)
Theorem upload_and_ask_call_order (cfg : config) (w : world)
    (request : form_request) (i : nat) (ev : event) :
  (run (upload_and_ask cfg w request)).2 !! i = Some ev -> call_rank ev = i.
Proof.
  rewrite upload_and_ask_log.
  destruct (files request !! "file") as [file|]; [| cbn; discriminate].
  destruct (form request !! "question") as [question|]; [| cbn; discriminate].
  destruct (upload_and_analyze cfg w file []) as [[result | e] log] eqn:E;
    assert (Hlog : log = (upload_and_analyze cfg w file []).2) by now rewrite E.
  - pose proof (upload_and_analyze_ok_length cfg w file result log E) as Hlen.
    intros H. destruct (decide (i < 3)%nat) as [Hi | Hi].
    + rewrite lookup_app_l in H by lia. rewrite Hlog in H.
      now apply upload_and_analyze_ranked in H.
    + rewrite lookup_app_r in H by lia. rewrite Hlen in H.
      destruct (i - 3)%nat as [|j] eqn:Ej; cbn in H; [| discriminate H].
      injection H as <-. cbn. lia.
  - intros H. rewrite Hlog in H. now apply upload_and_analyze_ranked in H.
Qed.

Lemma upload_and_ask_call_order_witness :
  call_rank (CreateCompletion
               (upload_request Demo.cfg "Budget: $500k. No compliance info."
                  "What is the budget?")) = 3%nat.
Proof.
  apply (upload_and_ask_call_order Demo.cfg Demo.answering (Demo.ask "What is the budget?")).
  reflexivity.
Defined.

(** The calls of [extract_text] are calls of the upload steps. *)
Lemma extract_text_call_order_aux (cfg : config) (w : world)
    (request : form_request) (i : nat) (ev : event) :
  (run (extract_text cfg w request)).2 !! i = Some ev ->
  call_rank ev = i /\ (i < 3)%nat.
Proof.
  rewrite extract_text_log.
  destruct (files request !! "file") as [file|]; [| cbn; discriminate].
  apply upload_and_analyze_ranked.
Qed.

(** X5. [extract_text] makes at most three calls, in the order store, sign,
    analyse, and never calls the completion service. *)
Theorem extract_text_call_order (cfg : config) (w : world)
    (request : form_request) (i : nat) (ev : event) :
  (run (extract_text cfg w request)).2 !! i = Some ev ->
  call_rank ev = i /\ (i < 3)%nat /\ (forall req, ev <> CreateCompletion req).
Proof.
  intros H. apply extract_text_call_order_aux in H as [Hrank Hi].
  repeat split; try assumption.
  intros req ->. cbn in Hrank. lia.
Qed.

Lemma extract_text_call_order_witness :
  call_rank (AnalyzeDocument "prebuilt-document"
               (sas_url Demo.cfg Demo.answering Demo.report "sig=abc")) = 2%nat
  /\ (2 < 3)%nat
  /\ (forall req, AnalyzeDocument "prebuilt-document"
                    (sas_url Demo.cfg Demo.answering Demo.report "sig=abc")
                  <> CreateCompletion req).
Proof.
  apply (extract_text_call_order Demo.cfg Demo.answering (Demo.ask "What is the budget?")).
  reflexivity.
Defined.

(** X6. The two chat operations never touch blob storage or the document
    analysis: whatever the body, each makes no call at all or exactly one,
    a completion call. *)
Theorem chat_operations_only_complete (cfg : config) (w : world)
    (request_json data : json) :
  ((run (chat cfg w request_json)).2 = []
   \/ exists req, (run (chat cfg w request_json)).2 = [ CreateCompletion req ])
  /\ ((run (followup_chat cfg w data)).2 = []
      \/ exists req, (run (followup_chat cfg w data)).2 = [ CreateCompletion req ]).
Proof.
  split.
  - rewrite chat_run. destruct request_json; cbn; eauto.
  - rewrite followup_chat_run.
    destruct data as [| | | | |fields]; cbn; auto.
    destruct (fields !! "doc") as [doc|]; cbn; auto.
    destruct (fields !! "history") as [[| | | |history|]|]; cbn; auto.
    rewrite complete_run. right.
    destruct (chat_completions_create w _) as [[[|c cs]] | e]; cbn; eauto.
Qed.


(** ** What the caller gets back *)

(** X1. [upload_and_ask] and [followup_chat] never let an exception
    escape: whatever the request and whatever the services do, they answer
    with status 200 or 500.  [extract_text] answers with status 200, 400 or
    500 unless the [print] of its [except] block raises, so the only
    exception that can leave it is a [UnicodeEncodeError]; none does when
    the process output encodes every text. *)
Theorem guarded_handlers_respond (cfg : config) (w : world)
    (request : form_request) (data : json) :
  (exists resp, (run (upload_and_ask cfg w request)).1 = Ok resp
                /\ (status resp = 200 \/ status resp = 500))
  /\ (exists resp, (run (followup_chat cfg w data)).1 = Ok resp
                   /\ (status resp = 200 \/ status resp = 500))
  /\ ((exists resp, (run (extract_text cfg w request)).1 = Ok resp
                    /\ (status resp = 200 \/ status resp = 400 \/ status resp = 500))
      \/ (run (extract_text cfg w request)).1 = Raise UnicodeEncodeError)
  /\ ((forall text, stdout_encodes w text = true) ->
      exists resp, (run (extract_text cfg w request)).1 = Ok resp
                   /\ (status resp = 200 \/ status resp = 400 \/ status resp = 500)).
Proof.
  split; [| split; [| split]].
  - rewrite upload_and_ask_run.
    destruct (files request !! "file") as [file|]; [| eexists; split; [reflexivity | auto]].
    destruct (form request !! "question") as [question|];
      [| eexists; split; [reflexivity | auto]].
    destruct (upload_and_analyze cfg w file []) as [[result | e] log];
      [| eexists; split; [reflexivity | auto]].
    destruct (complete w _ log) as [[answer | e] log'];
      eexists; (split; [reflexivity | auto]).
  - rewrite followup_chat_run.
    destruct data as [| | | | |fields]; try (eexists; split; [reflexivity | auto]).
    destruct (fields !! "doc") as [doc|]; [| eexists; split; [reflexivity | auto]].
    destruct (fields !! "history") as [[| | | |history|]|];
      try (eexists; split; [reflexivity | auto]).
    destruct (complete w _ []) as [[answer | e] log];
      eexists; (split; [reflexivity | auto]).
  - rewrite extract_text_run. cbv zeta.
    destruct (files request !! "file") as [file|];
      [destruct (upload_and_analyze cfg w file []) as [[result | e] log] |];
      repeat match goal with
             | |- context [if ?c then _ else _] => destruct c
             end;
      solve [ right; reflexivity
            | left; eexists; split; [reflexivity | cbn; auto] ].
  - intros Hutf. rewrite extract_text_run. cbv zeta.
    assert (Hprint : forall text, printable w text = true).
    { intros text. unfold printable. rewrite Hutf. apply orb_true_r. }
    destruct (files request !! "file") as [file|];
      [destruct (upload_and_analyze cfg w file []) as [[result | e] log] |];
      cbv beta; rewrite ?Hprint;
      repeat match goal with
             | |- context [if ?c then _ else _] => destruct c
             end;
      eexists; (split; [reflexivity | cbn; auto]).
Qed.

Lemma guarded_handlers_respond_witness :
  exists resp,
    (run (extract_text Demo.cfg Demo.answering (Demo.ask "What is the budget?"))).1
    = Ok resp
    /\ (status resp = 200 \/ status resp = 400 \/ status resp = 500).
Proof.
  apply (guarded_handlers_respond Demo.cfg Demo.answering
           (Demo.ask "What is the budget?") JNull).
  reflexivity.
Defined.

(** X2. [chat] lets an exception escape exactly when the body is not a
    JSON object: it is then the [AttributeError] of [.get], raised before
    any call is made. *)
Theorem chat_raises_iff_not_object (cfg : config) (w : world) (request_json : json) :
  ((exists e, (run (chat cfg w request_json)).1 = Raise e)
   <-> forall fields, request_json <> JObject fields)
  /\ ((forall fields, request_json <> JObject fields) ->
      run (chat cfg w request_json) = (Raise (AttributeError request_json "get"), [])).
Proof.
  rewrite chat_run. destruct request_json as [| | | | |fields].
  all: try (split; [split; [intros _ fields; discriminate | intros _; eexists; reflexivity]
                   | reflexivity]).
  split; [split |].
  - intros [e He]. cbn in He. discriminate He.
  - intros H. now destruct (H fields).
  - intros H. now destruct (H fields).
Qed.

Lemma chat_raises_iff_not_object_witness :
  run (chat Demo.cfg Demo.answering (JString "Summarize the proposal"))
  = (Raise (AttributeError (JString "Summarize the proposal") "get"), []).
Proof.
  apply (chat_raises_iff_not_object Demo.cfg Demo.answering). intros fields. discriminate.
Defined.

(** X3. [upload_and_ask] looks for the file and the question before it
    touches any service: if either is missing from the request nothing is
    uploaded, signed or analysed, and the answer is a 500 naming the
    missing key.  [extract_text] does the same for the file. *)
Theorem missing_parts_make_no_call (cfg : config) (w : world) (request : form_request) :
  (files request !! "file" = None \/ form request !! "question" = None ->
   exists key,
     run (upload_and_ask cfg w request)
     = (Ok (jsonify "error" (str_exn w (BadRequestKeyError key)) 500), [])
     /\ (key = "file" \/ key = "question"))
  /\ (files request !! "file" = None ->
      run (extract_text cfg w request)
      = (Ok (jsonify "error" (str_exn w (BadRequestKeyError "file")) 500), [])).
Proof.
  split.
  - rewrite upload_and_ask_run. intros [H | H].
    + rewrite H. exists "file". auto.
    + rewrite H. destruct (files request !! "file"); [exists "question" | exists "file"]; auto.
  - rewrite extract_text_run. now intros ->.
Qed.

Lemma missing_parts_make_no_call_witness :
  exists key,
    run (upload_and_ask Demo.cfg Demo.answering
           {| files := {[ "file" := Demo.report ]}; form := ∅ |})
    = (Ok (jsonify "error" (str_exn Demo.answering (BadRequestKeyError key)) 500), [])
    /\ (key = "file" \/ key = "question").
Proof.
  apply (missing_parts_make_no_call Demo.cfg Demo.answering
           {| files := {[ "file" := Demo.report ]}; form := ∅ |}).
  right. reflexivity.
Defined.

(** A completion call of [upload_and_ask] carries an upload request. *)
Lemma upload_completion_request (cfg : config) (w : world)
    (request : form_request) (req : completion_request) :
  CreateCompletion req ∈ (run (upload_and_ask cfg w request)).2 ->
  exists full_text question, req = upload_request cfg full_text question.
Proof.
  rewrite upload_and_ask_log.
  destruct (files request !! "file") as [file|]; [| intros H; in_log H].
  destruct (form request !! "question") as [question|]; [| intros H; in_log H].
  destruct (upload_and_analyze cfg w file []) as [[result | e] log] eqn:E;
    intros H; [apply elem_of_app in H as [H | H] |].
  - apply list_elem_of_lookup in H as [i Hi].
    replace log with (upload_and_analyze cfg w file []).2 in Hi by now rewrite E.
    apply upload_and_analyze_ranked in Hi as [Hrank Hi]. cbn in Hrank. lia.
  - apply list_elem_of_singleton in H. injection H as ->. eauto.
  - apply list_elem_of_lookup in H as [i Hi].
    replace log with (upload_and_analyze cfg w file []).2 in Hi by now rewrite E.
    apply upload_and_analyze_ranked in Hi as [Hrank Hi]. cbn in Hrank. lia.
Qed.

(** X7. Every prompt [upload_and_ask] sends to the completion service is
    grounded in the analysis of that very request: a completion call is
    made only after the upload steps succeeded, and its request is built
    from the body of their result and the question of the form. *)
Theorem completion_follows_analysis (cfg : config) (w : world)
    (request : form_request) (req : completion_request) :
  CreateCompletion req ∈ (run (upload_and_ask cfg w request)).2 ->
  exists file question result log,
    files request !! "file" = Some file
    /\ form request !! "question" = Some question
    /\ upload_and_analyze cfg w file [] = (Ok result, log)
    /\ req = upload_request cfg (upload_full_text result) question.
Proof.
  rewrite upload_and_ask_log.
  destruct (files request !! "file") as [file|]; [| intros H; in_log H].
  destruct (form request !! "question") as [question|]; [| intros H; in_log H].
  assert (Hnot : ~ CreateCompletion req ∈ (upload_and_analyze cfg w file []).2).
  { intros H. apply list_elem_of_lookup in H as [i Hi].
    apply upload_and_analyze_ranked in Hi as [Hrank Hi]. cbn in Hrank. lia. }
  destruct (upload_and_analyze cfg w file []) as [[result | e] log] eqn:E;
    cbn [snd] in Hnot; intros H; [| contradiction].
  apply elem_of_app in H as [H | H]; [contradiction |].
  apply list_elem_of_singleton in H. injection H as ->.
  exists file, question, result, log. auto.
Qed.

Lemma completion_follows_analysis_witness :
  exists file question result log,
    files (Demo.ask "What is the budget?") !! "file" = Some file
    /\ form (Demo.ask "What is the budget?") !! "question" = Some question
    /\ upload_and_analyze Demo.cfg Demo.answering file [] = (Ok result, log)
    /\ upload_request Demo.cfg "Budget: $500k. No compliance info." "What is the budget?"
       = upload_request Demo.cfg (upload_full_text result) question.
Proof.
  apply (completion_follows_analysis Demo.cfg Demo.answering).
  vm_compute. do 3 apply list_elem_of_further. apply list_elem_of_here.
Defined.

(** ** The grant, the URL and the stored blob *)

Section UploadSteps.

Variable cfg : config.
Variable w : world.

(** In the log of the upload steps, the grant and the analysed URL are
    those of the stored blob. *)
Lemma upload_steps_consistent (file : FileStorage) (container : option string)
    (blob : string) (stored : FileStorage) :
  UploadBlob container blob stored ∈ (upload_and_analyze cfg w file []).2 ->
  (forall grant,
     GenerateBlobSas grant ∈ (upload_and_analyze cfg w file []).2 ->
     Sas.container_name grant = container /\ Sas.blob_name grant = blob)
  /\ (forall model_id url,
        AnalyzeDocument model_id url ∈ (upload_and_analyze cfg w file []).2 ->
        model_id = "prebuilt-document"
        /\ exists grant token,
             GenerateBlobSas grant ∈ (upload_and_analyze cfg w file []).2
             /\ generate_blob_sas w grant = Ok token
             /\ url = blob_url w container blob +:+ "?" +:+ token).
Proof.
  rewrite upload_and_analyze_run. cbv zeta. unfold sas_url.
  destruct (upload_blob w _ _ file) as [[] | e];
    [ destruct ((0 <=? _) && _)%Z;
      [ destruct (generate_blob_sas w _) as [token | e] eqn:Hsas | ] | ];
    cbn [snd]; intros Hup; in_log Hup; injection Hup as -> -> ->;
    (split; [ intros grant H; in_log H; injection H as ->; split; reflexivity
            | intros model_id url H; in_log H ]).
  injection H as -> ->. split; [reflexivity |].
  eexists _, token. split; [| split; [exact Hsas | reflexivity]].
  apply list_elem_of_further, list_elem_of_here.
Qed.

(** The log of an upload handler is empty, or the log of the upload steps
    for the file of the request, possibly followed by a completion call. *)
Lemma handler_log_cases (request : form_request) (log : list event) :
  log = (run (upload_and_ask cfg w request)).2
  \/ log = (run (extract_text cfg w request)).2 ->
  log = []
  \/ exists file,
       files request !! "file" = Some file
       /\ (log = (upload_and_analyze cfg w file []).2
           \/ exists req,
                log = ((upload_and_analyze cfg w file []).2 ++ [ CreateCompletion req ])%list).
Proof.
  intros [-> | ->].
  - rewrite upload_and_ask_log.
    destruct (files request !! "file") as [file|]; [| now left].
    destruct (form request !! "question") as [question|]; [| now left].
    right. exists file. split; [reflexivity |].
    destruct (upload_and_analyze cfg w file []) as [[result | e] log]; cbn [snd]; eauto.
  - rewrite extract_text_log.
    destruct (files request !! "file") as [file|]; [| now left].
    right. exists file. split; [reflexivity |]. now left.
Qed.

End UploadSteps.

(** X8. In both upload handlers the grant is signed for the very blob that
    was just stored (same container, same name), and the document analysed
    is the one behind that blob's URL followed by "?" and the token the
    signing returned, read with the "prebuilt-document" model. *)
Theorem grant_and_url_name_the_upload (cfg : config) (w : world)
    (request : form_request) (log : list event)
    (container : option string) (blob : string) (stored : FileStorage) :
  log = (run (upload_and_ask cfg w request)).2
  \/ log = (run (extract_text cfg w request)).2 ->
  UploadBlob container blob stored ∈ log ->
  (forall grant,
     GenerateBlobSas grant ∈ log ->
     Sas.container_name grant = container /\ Sas.blob_name grant = blob)
  /\ (forall model_id url,
        AnalyzeDocument model_id url ∈ log ->
        model_id = "prebuilt-document"
        /\ exists grant token,
             GenerateBlobSas grant ∈ log
             /\ generate_blob_sas w grant = Ok token
             /\ url = blob_url w container blob +:+ "?" +:+ token).
Proof.
  intros Hlog Hup.
  destruct (handler_log_cases cfg w request log Hlog) as [-> | (file & _ & Hcases)];
    [in_log Hup |].
  assert (Hsub : forall ev, (forall req, ev <> CreateCompletion req) ->
                   ev ∈ log -> ev ∈ (upload_and_analyze cfg w file []).2).
  { intros ev Hev Hin. destruct Hcases as [-> | [req ->]]; [exact Hin |].
    apply elem_of_app in Hin as [Hin | Hin]; [exact Hin |].
    apply list_elem_of_singleton in Hin. now destruct (Hev req). }
  assert (Hsup : forall ev, ev ∈ (upload_and_analyze cfg w file []).2 -> ev ∈ log).
  { intros ev Hin. destruct Hcases as [-> | [req ->]]; [exact Hin |].
    apply elem_of_app. now left. }
  apply Hsub in Hup; [| discriminate].
  destruct (upload_steps_consistent cfg w file container blob stored Hup) as [Hg Hu].
  split.
  - intros grant H. apply Hg, Hsub; [discriminate | exact H].
  - intros model_id url H. apply Hsub in H; [| discriminate].
    destruct (Hu model_id url H) as (-> & grant & token & Hin & Hsas & ->).
    split; [reflexivity |]. exists grant, token. auto.
Qed.

Lemma grant_and_url_name_the_upload_witness :
  (forall grant,
     GenerateBlobSas grant ∈ (run (extract_text Demo.cfg Demo.answering
                                    (Demo.ask "What is the budget?"))).2 ->
     Sas.container_name grant = Some "uploads"
     /\ Sas.blob_name grant = "123e4567-e89b-42d3-a456-426614174000_report.pdf")
  /\ (forall model_id url,
        AnalyzeDocument model_id url ∈ (run (extract_text Demo.cfg Demo.answering
                                              (Demo.ask "What is the budget?"))).2 ->
        model_id = "prebuilt-document"
        /\ exists grant token,
             GenerateBlobSas grant ∈ (run (extract_text Demo.cfg Demo.answering
                                            (Demo.ask "What is the budget?"))).2
             /\ generate_blob_sas Demo.answering grant = Ok token
             /\ url = blob_url Demo.answering (Some "uploads")
                        "123e4567-e89b-42d3-a456-426614174000_report.pdf"
                      +:+ "?" +:+ token).
Proof.
  apply (grant_and_url_name_the_upload Demo.cfg Demo.answering
           (Demo.ask "What is the budget?") _ (Some "uploads")
           "123e4567-e89b-42d3-a456-426614174000_report.pdf" Demo.report).
  - right. reflexivity.
  - vm_compute. apply list_elem_of_here.
Defined.

(** ** Reading a storage key back *)

Section KeyParts.

Lemma take_app_length (a b : string) : take (String.length a) (a +:+ b) = a.
Proof. induction a as [|c a IH]; simpl; [now destruct b | now rewrite IH]. Qed.

Lemma drop_app_length (a b : string) : drop (String.length a) (a +:+ b) = b.
Proof. induction a as [|c a IH]; simpl; [reflexivity | exact IH]. Qed.

Lemma all_chars_app (p : ascii -> bool) (a b : string) :
  all_chars p (a +:+ b) = all_chars p a && all_chars p b.
Proof.
  induction a as [|c a IH]; simpl; [reflexivity |].
  rewrite IH. now destruct (p c).
Qed.

Lemma all_chars_take (p : ascii -> bool) (n : nat) (s : string) :
  all_chars p s = true -> all_chars p (take n s) = true.
Proof.
  revert s; induction n as [|n IH]; intros [|c s]; simpl; try reflexivity.
  intros H. apply andb_true_iff in H as [Hc Hs]. rewrite Hc. now apply IH.
Qed.

Lemma all_chars_drop (p : ascii -> bool) (n : nat) (s : string) :
  all_chars p s = true -> all_chars p (drop n s) = true.
Proof.
  revert s; induction n as [|n IH]; intros [|c s]; simpl; try (intros H; exact H).
  intros H. apply andb_true_iff in H as [_ Hs]. now apply IH.
Qed.

Lemma hex_digit_not_underscore (d : Z) :
  0 <= d < 16 -> not_underscore (Uuid.hex_digit d) = true.
Proof.
  intros Hd. unfold not_underscore. apply negb_true_iff, Ascii.eqb_neq.
  intros H. apply (f_equal nat_of_ascii) in H. unfold Uuid.hex_digit in H.
  rewrite nat_ascii_embedding in H by (destruct (d <? 10)%Z; lia).
  change (nat_of_ascii "_") with 95%nat in H.
  destruct (Z.ltb_spec d 10); lia.
Qed.

Lemma hex_fixed_no_underscore (k : nat) (n : Z) :
  all_chars not_underscore (Uuid.hex_fixed k n) = true.
Proof.
  revert n; induction k as [|k IH]; intros n; simpl; [reflexivity |].
  rewrite all_chars_app, IH. simpl.
  rewrite hex_digit_not_underscore by (apply Z.mod_pos_bound; lia). reflexivity.
Qed.

Lemma uuid_str_no_underscore (u : Uuid.UUID) :
  all_chars not_underscore (Uuid.str u) = true.
Proof.
  unfold Uuid.str, Uuid.grouped, slice.
  pose proof (hex_fixed_no_underscore 32 (Uuid.int u)) as H.
  set (h := Uuid.hex_fixed 32 (Uuid.int u)) in *.
  rewrite !all_chars_app, !all_chars_take, !all_chars_drop by
    (try apply all_chars_drop; assumption).
  reflexivity.
Qed.

(** The first underscore after a text that has none is right behind it. *)
Lemma find_underscore_after (a b : string) (off : nat) :
  all_chars not_underscore a = true ->
  find_from off "_" (a +:+ "_" +:+ b) = Some (off + String.length a)%nat.
Proof.
  revert off; induction a as [|c a IH]; intros off H; rewrite find_from_unfold.
  - simpl. f_equal. lia.
  - simpl in H. apply andb_true_iff in H as [Hc Ha].
    cbn -[Ascii.eqb find_from]. unfold not_underscore in Hc. apply negb_true_iff in Hc.
    rewrite Ascii.eqb_sym in Hc. rewrite Hc, (IH _ Ha). f_equal. lia.
Qed.

End KeyParts.

(** X9. A storage key can be taken apart again: its first 36 characters
    are the identifier's text, character 36 is the underscore, and what
    follows is the original file name, unchanged; the key is 37 characters
    longer than the name. *)
Theorem storage_key_round_trip (u : Uuid.UUID) (original_name : string) :
  take 36 (storage_key u original_name) = Uuid.str u
  /\ slice 36 37 (storage_key u original_name) = "_"
  /\ drop 37 (storage_key u original_name) = original_name
  /\ String.length (storage_key u original_name)
     = (37 + String.length original_name)%nat.
Proof.
  unfold storage_key, slice.
  pose proof (str_length u) as L. set (s := Uuid.str u) in *.
  assert (Hdrop : drop 36 (s +:+ "_" +:+ original_name) = "_" +:+ original_name)
    by (rewrite <- L; apply drop_app_length).
  split; [| split; [| split]].
  - rewrite <- L. apply take_app_length.
  - rewrite Hdrop. reflexivity.
  - change 37%nat with (36 + 1)%nat. rewrite <- drop_drop_add, Hdrop. reflexivity.
  - rewrite !str_length_app, L. reflexivity.
Qed.

(** X10. The first underscore of a storage key is the separator at index
    36, whatever the original name: the identifier's text has no
    underscore, so a name that contains underscores itself does not blur
    where the identifier ends. *)
Theorem storage_key_first_underscore (u : Uuid.UUID) (original_name : string) :
  all_chars not_underscore (Uuid.str u) = true
  /\ find "_" (storage_key u original_name) = Some 36%nat.
Proof.
  split; [apply uuid_str_no_underscore |].
  unfold find, storage_key.
  rewrite find_underscore_after by apply uuid_str_no_underscore.
  now rewrite str_length.
Qed.

(** ** More about the document body *)

Section BodyFacts.

Lemma join_app (sep : string) (xs ys : list string) :
  xs <> [] -> ys <> [] ->
  join sep (xs ++ ys)%list = join sep xs +:+ sep +:+ join sep ys.
Proof.
  intros Hx Hy. induction xs as [|x xs IH]; [contradiction |].
  destruct xs as [|x' xs].
  - destruct ys as [|y ys]; [contradiction | reflexivity].
  - change ((x :: x' :: xs) ++ ys)%list with (x :: x' :: (xs ++ ys))%list.
    rewrite !join_two.
    change (x' :: (xs ++ ys))%list with ((x' :: xs) ++ ys)%list.
    rewrite IH by discriminate. now rewrite !str_app_assoc.
Qed.

Lemma join_two_nonempty (x y : string) (rest : list string) :
  join " " (x :: y :: rest) <> "".
Proof.
  rewrite join_two. intros H. apply (f_equal String.length) in H.
  rewrite !str_length_app in H. simpl in H. lia.
Qed.

(** A payload determines the text it carries. *)
Lemma jsonify_inj (key a b : string) (code : Z) :
  jsonify key a code = jsonify key b code -> a = b.
Proof.
  intros H.
  apply (f_equal (fun r => match body r with
                           | JObject fields => fields !! key
                           | _ => None
                           end)) in H.
  unfold jsonify in H. cbn [body] in H.
  rewrite !lookup_singleton_eq in H. congruence.
Qed.

End BodyFacts.

(** X11. Bodies compose: the body [extract_text] derives from two
    non-empty runs of paragraphs, one after the other, is the body of the
    first, one space, and the body of the second. *)
Theorem body_of_appended_paragraphs (ps qs : list DocumentParagraph) :
  ps <> [] -> qs <> [] ->
  extract_full_text {| paragraphs := Some (ps ++ qs)%list |}
  = extract_full_text {| paragraphs := Some ps |} +:+ " "
    +:+ extract_full_text {| paragraphs := Some qs |}.
Proof.
  intros Hp Hq. unfold extract_full_text. cbn [paragraphs paragraph_contents].
  rewrite map_app. apply join_app; now destruct ps, qs.
Qed.

Lemma body_of_appended_paragraphs_witness :
  extract_full_text {| paragraphs := Some (Demo.budget ++ Demo.budget)%list |}
  = extract_full_text {| paragraphs := Some Demo.budget |} +:+ " "
    +:+ extract_full_text {| paragraphs := Some Demo.budget |}.
Proof. apply body_of_appended_paragraphs; discriminate. Defined.

(** X12. The body grounded by [upload_and_ask] is the empty string in one
    case only: the analysis reported exactly one paragraph and its content
    is empty.  (No paragraphs give the sentinel, two or more give at least
    the separating space.) *)
Theorem upload_body_empty_iff (result : AnalyzeResult) :
  upload_full_text result = ""
  <-> exists p, paragraphs result = Some [ p ] /\ content p = "".
Proof.
  destruct result as [[[|p [|q ps]]|]]; unfold upload_full_text;
    cbn [paragraphs truthy_paragraphs paragraph_contents map].
  - split; [discriminate | intros (p & [=] & _)].
  - cbn [join]. split; [intros H; now exists p | now intros (p' & [= <-] & ->)].
  - split; [intros H; now apply join_two_nonempty in H | intros (p' & [=] & _)].
  - split; [discriminate | intros (p & [=] & _)].
Qed.

(** X13. The two upload handlers agree on the body: when [extract_text]
    answers a request with [{text: t}], [upload_and_ask], given the same
    request in the same world, ends with a completion call whose prompt is
    built from that same [t] and the question. *)
Theorem handlers_agree_on_body (cfg : config) (w : world) (request : form_request)
    (text question : string) :
  (run (extract_text cfg w request)).1 = Ok (jsonify "text" text 200) ->
  form request !! "question" = Some question ->
  last (run (upload_and_ask cfg w request)).2
  = Some (CreateCompletion (upload_request cfg text question)).
Proof.
  rewrite extract_text_run, upload_and_ask_log. cbv beta zeta.
  intros Hext Hq. rewrite Hq.
  assert (Hreport : forall (e : exn) (log : list event),
            (if printable w (error_line w e)
             then (Ok (jsonify "error" (str_exn w e) 500), log)
             else (Raise UnicodeEncodeError, log)).1
            <> Ok (jsonify "text" text 200)).
  { intros e log. destruct (printable w (error_line w e)); cbn [fst]; intros H;
      [| discriminate H].
    apply (f_equal (fun o => match o with Ok r => status r | Raise _ => 0 end)) in H.
    discriminate H. }
  destruct (files request !! "file") as [file|]; [| now apply Hreport in Hext].
  destruct (upload_and_analyze cfg w file []) as [[result | e] log];
    [| now apply Hreport in Hext].
  destruct (printable w (raw_response_line w result)); [| now apply Hreport in Hext].
  unfold upload_full_text.
  destruct (truthy_paragraphs (paragraphs result)); [| discriminate Hext].
  cbn [fst] in Hext.
  assert (Hbody : jsonify "text" (extract_full_text result) 200 = jsonify "text" text 200)
    by congruence.
  apply jsonify_inj in Hbody as <-. apply last_snoc.
Qed.

Lemma handlers_agree_on_body_witness :
  last (run (upload_and_ask Demo.cfg Demo.answering (Demo.ask "What is the budget?"))).2
  = Some (CreateCompletion
            (upload_request Demo.cfg "Budget: $500k. No compliance info."
               "What is the budget?")).
Proof. apply handlers_agree_on_body; reflexivity. Defined.

(** ** When a service fails *)

Section CompletionCalls.

Variable cfg : config.
Variable w : world.

(** The one completion call of [chat] is for the message of the body. *)
Lemma chat_completion_request (request_json : json) (req : completion_request) :
  CreateCompletion req ∈ (run (chat cfg w request_json)).2 ->
  exists fields,
    request_json = JObject fields
    /\ req = chatbot_request cfg w (default (JString "") (fields !! "message")).
Proof.
  rewrite chat_run. destruct request_json as [| | | | |fields]; cbn [snd];
    intros H; in_log H.
  injection H as ->. now exists fields.
Qed.

(** The one completion call of [followup_chat] is for the turns composed
    from the body. *)
Lemma followup_completion_request (data : json) (req : completion_request) :
  CreateCompletion req ∈ (run (followup_chat cfg w data)).2 ->
  exists fields doc history,
    data = JObject fields
    /\ fields !! "doc" = Some doc
    /\ fields !! "history" = Some (JArray history)
    /\ req = followup_request cfg
               (turn "system" (JString prompt_intro) :: turn "system" doc :: history).
Proof.
  rewrite followup_chat_run.
  destruct data as [| | | | |fields]; cbn [snd]; try solve [intros H; in_log H].
  destruct (fields !! "doc") as [doc|] eqn:Hdoc; cbn [snd]; [| intros H; in_log H].
  destruct (fields !! "history") as [[| | | |history|]|] eqn:Hhist; cbn [snd];
    try solve [intros H; in_log H].
  rewrite complete_run.
  destruct (chat_completions_create w _) as [[[|c cs]] | e];
    cbn [snd app]; intros H; in_log H; injection H as ->;
    now exists fields, doc, history.
Qed.

(** The completion call of [upload_and_ask] closes the log of successful
    upload steps. *)
Lemma upload_completion_grounded (request : form_request) (req : completion_request) :
  CreateCompletion req ∈ (run (upload_and_ask cfg w request)).2 ->
  exists file question result log,
    files request !! "file" = Some file
    /\ form request !! "question" = Some question
    /\ upload_and_analyze cfg w file [] = (Ok result, log)
    /\ req = upload_request cfg (upload_full_text result) question.
Proof.
  rewrite upload_and_ask_log.
  destruct (files request !! "file") as [file|]; [| intros H; in_log H].
  destruct (form request !! "question") as [question|]; [| intros H; in_log H].
  assert (Hnot : ~ CreateCompletion req ∈ (upload_and_analyze cfg w file []).2).
  { intros H. apply list_elem_of_lookup in H as [i Hi].
    apply upload_and_analyze_ranked in Hi as [Hrank Hi]. cbn in Hrank. lia. }
  destruct (upload_and_analyze cfg w file []) as [[result | e] log] eqn:E;
    cbn [snd] in Hnot; intros H; [| contradiction].
  apply elem_of_app in H as [H | H]; [contradiction |].
  apply list_elem_of_singleton in H. injection H as ->.
  exists file, question, result, log. auto.
Qed.

End CompletionCalls.

(** X14. When a completion call made by [followup_chat] or by
    [upload_and_ask] raises, the handler answers with status 500 and the
    exception's message under "error" (where [chat] answers 200 with an
    explanatory text), and the failed call is the last call of the
    request. *)
Theorem completion_failure_is_500 (cfg : config) (w : world)
    (request : form_request) (data : json) (req : completion_request) (e : exn) :
  chat_completions_create w req = Raise e ->
  (CreateCompletion req ∈ (run (followup_chat cfg w data)).2 ->
   run (followup_chat cfg w data)
   = (Ok {| body := JObject {[ "error" := JString (str_exn w e) ]}; status := 500 |},
      [ CreateCompletion req ]))
  /\ (CreateCompletion req ∈ (run (upload_and_ask cfg w request)).2 ->
      (run (upload_and_ask cfg w request)).1
      = Ok {| body := JObject {[ "error" := JString (str_exn w e) ]}; status := 500 |}
      /\ last (run (upload_and_ask cfg w request)).2 = Some (CreateCompletion req)).
Proof.
  intros Hfail. split.
  - intros H.
    apply followup_completion_request in H
      as (fields & doc & history & -> & Hdoc & Hhist & ->).
    rewrite followup_chat_run, Hdoc, Hhist, complete_run, Hfail. reflexivity.
  - intros H.
    pose proof (upload_completion_grounded cfg w request req H)
      as (file & question & result & log & Hfile & Hq & Hrun & ->).
    rewrite upload_and_ask_log, upload_and_ask_run, Hfile, Hq, Hrun, complete_run, Hfail.
    split; [reflexivity | apply last_snoc].
Qed.

Lemma completion_failure_is_500_witness :
  (run (upload_and_ask Demo.cfg Demo.failing (Demo.ask "What is the budget?"))).1
  = Ok {| body := JObject {[ "error" := JString "quota exceeded" ]}; status := 500 |}
  /\ last (run (upload_and_ask Demo.cfg Demo.failing (Demo.ask "What is the budget?"))).2
     = Some (CreateCompletion
               (upload_request Demo.cfg "Budget: $500k. No compliance info."
                  "What is the budget?")).
Proof.
  refine (proj2 (completion_failure_is_500 Demo.cfg Demo.failing
                   (Demo.ask "What is the budget?") JNull
                   (upload_request Demo.cfg "Budget: $500k. No compliance info."
                      "What is the budget?")
                   (ServiceError "quota exceeded") _) _).
  - reflexivity.
  - vm_compute. do 3 apply list_elem_of_further. apply list_elem_of_here.
Defined.

(** X15. A completion that comes back without any choice is handled like
    a failure of the call: indexing the first choice raises [IndexError],
    which [chat] turns into the text "Error retrieving insights: list index
    out of range" with status 200, and [followup_chat] into a 500 with
    "list index out of range" under "error". *)
Theorem empty_choices_are_a_failure (cfg : config) (w : world)
    (request_json data : json) (req : completion_request) :
  chat_completions_create w req = Ok {| choices := [] |} ->
  (CreateCompletion req ∈ (run (chat cfg w request_json)).2 ->
   (run (chat cfg w request_json)).1
   = Ok {| body := JObject {[ "response" :=
                     JString "Error retrieving insights: list index out of range" ]};
           status := 200 |})
  /\ (CreateCompletion req ∈ (run (followup_chat cfg w data)).2 ->
      (run (followup_chat cfg w data)).1
      = Ok {| body := JObject {[ "error" := JString "list index out of range" ]};
              status := 500 |}).
Proof.
  intros Hnone. split.
  - intros H. apply chat_completion_request in H as (fields & -> & ->).
    rewrite chat_run. cbv zeta. rewrite Hnone. reflexivity.
  - intros H.
    apply followup_completion_request in H
      as (fields & doc & history & -> & Hdoc & Hhist & ->).
    rewrite followup_chat_run, Hdoc, Hhist, complete_run, Hnone. reflexivity.
Qed.

Lemma empty_choices_are_a_failure_witness :
  (run (chat Demo.cfg Faults.no_choices
          (JObject {[ "message" := JString "Summarize the proposal" ]}))).1
  = Ok {| body := JObject {[ "response" :=
                    JString "Error retrieving insights: list index out of range" ]};
          status := 200 |}.
Proof.
  refine (proj1 (empty_choices_are_a_failure Demo.cfg Faults.no_choices
                   (JObject {[ "message" := JString "Summarize the proposal" ]}) JNull
                   (chatbot_request Demo.cfg Faults.no_choices
                      (JString "Summarize the proposal")) _) _).
  - reflexivity.
  - vm_compute. apply list_elem_of_here.
Defined.

(** X16. Only the first choice of a completion is used: the value
    returned by [chat] under "response" and by [followup_chat] under
    "answer" is the content of the first choice (null if that choice has no
    content), whatever further choices the service offers. *)
Theorem answer_is_first_choice (cfg : config) (w : world)
    (request_json data : json) (req : completion_request)
    (c : Choice) (cs : list Choice) :
  chat_completions_create w req = Ok {| choices := c :: cs |} ->
  let value := match message_content c with
               | Some text => JString text
               | None => JNull
               end in
  (CreateCompletion req ∈ (run (chat cfg w request_json)).2 ->
   (run (chat cfg w request_json)).1
   = Ok {| body := JObject {[ "response" := value ]}; status := 200 |})
  /\ (CreateCompletion req ∈ (run (followup_chat cfg w data)).2 ->
      (run (followup_chat cfg w data)).1
      = Ok {| body := JObject {[ "answer" := value ]}; status := 200 |}).
Proof.
  intros Hsome value. split.
  - intros H. apply chat_completion_request in H as (fields & -> & ->).
    rewrite chat_run. cbv zeta. rewrite Hsome. reflexivity.
  - intros H.
    apply followup_completion_request in H
      as (fields & doc & history & -> & Hdoc & Hhist & ->).
    rewrite followup_chat_run, Hdoc, Hhist, complete_run, Hsome. reflexivity.
Qed.

Lemma answer_is_first_choice_witness :
  (run (followup_chat Demo.cfg Faults.two_choices
          (JObject (<[ "doc" := JString "Budget: $500k." ]>
                      {[ "history" := JArray [] ]})))).1
  = Ok {| body := JObject {[ "answer" := JString "The budget is $500k." ]};
          status := 200 |}.
Proof.
  refine (proj2 (answer_is_first_choice Demo.cfg Faults.two_choices JNull
                   (JObject (<[ "doc" := JString "Budget: $500k." ]>
                               {[ "history" := JArray [] ]}))
                   (followup_request Demo.cfg
                      [ turn "system" (JString prompt_intro)
                      ; turn "system" (JString "Budget: $500k.") ])
                   {| message_content := Some "The budget is $500k." |}
                   [ {| message_content := Some "About half a million." |} ] _) _).
  - reflexivity.
  - vm_compute. apply list_elem_of_here.
Defined.

(** X17. [followup_chat] reaches the completion service exactly when the
    body is an object with a "doc" field and a "history" field that is a
    list; for any other body it answers 500 without making a call. *)
Theorem followup_calls_iff_well_formed (cfg : config) (w : world) (data : json) :
  ((run (followup_chat cfg w data)).2 <> []
   <-> exists fields doc history,
         data = JObject fields
         /\ fields !! "doc" = Some doc
         /\ fields !! "history" = Some (JArray history))
  /\ ((run (followup_chat cfg w data)).2 = [] ->
      exists e, run (followup_chat cfg w data)
                = (Ok (jsonify "error" (str_exn w e) 500), [])).
Proof.
  rewrite followup_chat_run. split; [split |].
  - intros Hne.
    destruct data as [| | | | |fields]; try (now destruct Hne).
    destruct (fields !! "doc") as [doc|] eqn:Hdoc; [| now destruct Hne].
    destruct (fields !! "history") as [[| | | |history|]|] eqn:Hhist;
      try (now destruct Hne).
    now exists fields, doc, history.
  - intros (fields & doc & history & -> & -> & ->). rewrite complete_run.
    destruct (chat_completions_create w _) as [[[|c cs]] | e]; discriminate.
  - intros Hnil.
    destruct data as [| | | | |fields]; try (eexists; reflexivity).
    destruct (fields !! "doc") as [doc|]; [| eexists; reflexivity].
    destruct (fields !! "history") as [[| | | |history|]|]; try (eexists; reflexivity).
    rewrite complete_run in Hnil.
    destruct (chat_completions_create w _) as [[[|c cs]] | e]; discriminate Hnil.
Qed.

Lemma followup_calls_iff_well_formed_witness :
  exists e, run (followup_chat Demo.cfg Demo.answering
                   (JObject (<[ "doc" := JString "Budget: $500k." ]>
                               {[ "history" := JString "What is the budget?" ]})))
            = (Ok (jsonify "error" (str_exn Demo.answering e) 500), []).
Proof.
  apply (followup_calls_iff_well_formed Demo.cfg Demo.answering). reflexivity.
Defined.

(** X18. A refused upload ends the request at once: when blob storage
    raises, the store attempt is the only call [upload_and_ask] and
    [extract_text] make; no grant is signed and no document is analysed.
    [upload_and_ask] answers 500 with the storage's message under "error".
    So does [extract_text] if its [print] of that message goes through;
    if not, the [UnicodeEncodeError] of the [print] leaves the handler. *)
Theorem refused_upload_stops_the_flow (cfg : config) (w : world)
    (request : form_request) (file : FileStorage) (e : exn) :
  files request !! "file" = Some file ->
  upload_blob w (AZURE_BLOB_CONTAINER cfg) (storage_key (uuid4 w) (filename file)) file
  = Raise e ->
  let stored :=
    UploadBlob (AZURE_BLOB_CONTAINER cfg) (storage_key (uuid4 w) (filename file)) file in
  let refusal :=
    {| body := JObject {[ "error" := JString (str_exn w e) ]}; status := 500 |} in
  (run (extract_text cfg w request)).2 = [ stored ]
  /\ (printable w (" Error extracting text: " +:+ str_exn w e) = true ->
      (run (extract_text cfg w request)).1 = Ok refusal)
  /\ (printable w (" Error extracting text: " +:+ str_exn w e) = false ->
      (run (extract_text cfg w request)).1 = Raise UnicodeEncodeError)
  /\ (is_Some (form request !! "question") ->
      run (upload_and_ask cfg w request) = (Ok refusal, [ stored ])).
Proof.
  intros Hfile Hfail stored refusal.
  assert (Hrun : upload_and_analyze cfg w file [] = (Raise e, [ stored ])).
  { rewrite upload_and_analyze_run. cbv zeta. now rewrite Hfail. }
  rewrite extract_text_run, Hfile, Hrun. cbv beta zeta. unfold error_line.
  split; [| split; [| split]].
  - now destruct (printable w _).
  - now intros ->.
  - now intros ->.
  - intros [question Hq]. now rewrite upload_and_ask_run, Hfile, Hq, Hrun.
Qed.

Lemma refused_upload_stops_the_flow_witness :
  (run (extract_text Demo.cfg Faults.storage_down (Demo.ask "What is the budget?"))).2
  = [ UploadBlob (Some "uploads")
        (storage_key {| Uuid.int := Demo.id1 |} "report.pdf") Demo.report ]
  /\ run (upload_and_ask Demo.cfg Faults.storage_down (Demo.ask "What is the budget?"))
     = (Ok {| body := JObject {[ "error" := JString "storage unavailable" ]};
              status := 500 |},
        [ UploadBlob (Some "uploads")
            (storage_key {| Uuid.int := Demo.id1 |} "report.pdf") Demo.report ]).
Proof.
  destruct (refused_upload_stops_the_flow Demo.cfg Faults.storage_down
              (Demo.ask "What is the budget?") Demo.report
              (ServiceError "storage unavailable"))
    as (Hlog & _ & _ & Hask); [reflexivity | reflexivity |].
  split; [exact Hlog | apply Hask; now eexists].
Defined.

(** X19. The grant's expiry must be a [datetime]: if the clock reading
    plus ten minutes lies beyond [datetime.max], the addition raises after
    the file has been stored, so the upload handlers answer 500 with the
    file stored and no grant signed. *)
Theorem expiry_overflow_after_store (cfg : config) (w : world)
    (request : form_request) (file : FileStorage) :
  files request !! "file" = Some file ->
  upload_blob w (AZURE_BLOB_CONTAINER cfg) (storage_key (uuid4 w) (filename file)) file
  = Ok tt ->
  datetime_max < utcnow w + timedelta_minutes 10 ->
  run (extract_text cfg w request)
  = (Ok (jsonify "error" (str_exn w OverflowError) 500),
     [ UploadBlob (AZURE_BLOB_CONTAINER cfg) (storage_key (uuid4 w) (filename file)) file ])
  /\ (is_Some (form request !! "question") ->
      run (upload_and_ask cfg w request)
      = (Ok (jsonify "error" (str_exn w OverflowError) 500),
         [ UploadBlob (AZURE_BLOB_CONTAINER cfg)
             (storage_key (uuid4 w) (filename file)) file ])).
Proof.
  intros Hfile Hstore Hlate.
  assert (Hrun : upload_and_analyze cfg w file []
                 = (Raise OverflowError,
                    [ UploadBlob (AZURE_BLOB_CONTAINER cfg)
                        (storage_key (uuid4 w) (filename file)) file ])).
  { rewrite upload_and_analyze_run. cbv zeta. rewrite Hstore.
    replace (utcnow w + timedelta_minutes 10 <=? datetime_max)%Z with false
      by (symmetry; apply Z.leb_gt; exact Hlate).
    now rewrite andb_false_r. }
  split.
  - rewrite extract_text_run, Hfile, Hrun. cbv beta zeta.
    rewrite error_line_printable by now right. reflexivity.
  - intros [question Hq]. now rewrite upload_and_ask_run, Hfile, Hq, Hrun.
Qed.

Lemma expiry_overflow_after_store_witness :
  run (extract_text Demo.cfg Faults.end_of_time (Demo.ask "What is the budget?"))
  = (Ok (jsonify "error" (str_exn Faults.end_of_time OverflowError) 500),
     [ UploadBlob (Some "uploads")
         (storage_key {| Uuid.int := Demo.id1 |} "report.pdf") Demo.report ]).
Proof.
  refine (proj1 (expiry_overflow_after_store Demo.cfg Faults.end_of_time
                   (Demo.ask "What is the budget?") Demo.report _ _ _)); reflexivity.
Defined.

(** ** What a completion request looks like *)

(** Every completion call of any handler carries one of three requests. *)
Lemma completion_request_shapes (cfg : config) (w : world)
    (request_json data : json) (request : form_request) (req : completion_request) :
  CreateCompletion req ∈ (run (chat cfg w request_json)).2
  \/ CreateCompletion req ∈ (run (upload_and_ask cfg w request)).2
  \/ CreateCompletion req ∈ (run (extract_text cfg w request)).2
  \/ CreateCompletion req ∈ (run (followup_chat cfg w data)).2 ->
  (exists user_input, req = chatbot_request cfg w user_input)
  \/ (exists full_text question, req = upload_request cfg full_text question)
  \/ (exists doc history,
        req = followup_request cfg
                (turn "system" (JString prompt_intro) :: turn "system" doc :: history)).
Proof.
  intros [H | [H | [H | H]]].
  - left. revert H. rewrite chat_run.
    destruct request_json; cbn [snd]; intros H; in_log H.
    injection H as ->. eauto.
  - right; left. now apply upload_completion_request in H.
  - apply list_elem_of_lookup in H as [i Hi].
    apply extract_text_call_order_aux in Hi as [Hrank Hi]. cbn in Hrank. lia.
  - right; right. revert H. rewrite followup_chat_run.
    destruct data as [| | | | |fields]; cbn [snd]; try solve [intros H; in_log H].
    destruct (fields !! "doc") as [doc|]; cbn [snd]; [| intros H; in_log H].
    destruct (fields !! "history") as [[| | | |history|]|]; cbn [snd];
      try solve [intros H; in_log H].
    rewrite complete_run.
    destruct (chat_completions_create w _) as [[[|c cs]] | e];
      cbn [snd app]; intros H; in_log H; injection H as ->; eauto.
Qed.

(** X21. The sampling parameters are constants of the deployment: every
    completion call made by any handler names the configured deployment as
    model, with temperature 1/2 and at most 1000 tokens, whatever the
    request says.  The search binding travels with the call exactly when
    the extensions client is used. *)
Theorem sampling_parameters_are_fixed (cfg : config) (w : world)
    (request_json data : json) (request : form_request) (req : completion_request) :
  CreateCompletion req ∈ (run (chat cfg w request_json)).2
  \/ CreateCompletion req ∈ (run (upload_and_ask cfg w request)).2
  \/ CreateCompletion req ∈ (run (extract_text cfg w request)).2
  \/ CreateCompletion req ∈ (run (followup_chat cfg w data)).2 ->
  model req = AZURE_OAI_DEPLOYMENT cfg
  /\ temperature req = QArith_base.Qmake 1 2
  /\ max_tokens req = 1000
  /\ (via req = client_with_extensions /\ extra_body req = Some (extension_config cfg)
      \/ via req = client /\ extra_body req = None).
Proof.
  intros H.
  apply completion_request_shapes in H
    as [[v ->] | [(t & q & ->) | (doc & history & ->)]];
    (split; [reflexivity | split; [reflexivity | split; [reflexivity |]]]).
  - left. split; reflexivity.
  - right. split; reflexivity.
  - right. split; reflexivity.
Qed.

Lemma sampling_parameters_are_fixed_witness :
  model (chatbot_request Demo.cfg Demo.answering (JString "Summarize the proposal"))
  = Some "gpt-35-turbo"
  /\ temperature (chatbot_request Demo.cfg Demo.answering (JString "Summarize the proposal"))
     = QArith_base.Qmake 1 2
  /\ max_tokens (chatbot_request Demo.cfg Demo.answering (JString "Summarize the proposal"))
     = 1000
  /\ (via (chatbot_request Demo.cfg Demo.answering (JString "Summarize the proposal"))
      = client_with_extensions
      /\ extra_body (chatbot_request Demo.cfg Demo.answering
                       (JString "Summarize the proposal"))
         = Some (extension_config Demo.cfg)
      \/ via (chatbot_request Demo.cfg Demo.answering (JString "Summarize the proposal"))
         = client
         /\ extra_body (chatbot_request Demo.cfg Demo.answering
                          (JString "Summarize the proposal")) = None).
Proof.
  apply (sampling_parameters_are_fixed Demo.cfg Demo.answering
           (JObject {[ "message" := JString "Summarize the proposal" ]})
           JNull (Demo.ask "What is the budget?")).
  left. vm_compute. apply list_elem_of_here.
Defined.

(** X22. Every completion call opens with a turn of role "system" whose
    content is one of three fixed texts of the source; nothing of the
    request reaches that first turn. *)
Theorem first_turn_is_fixed_system_turn (cfg : config) (w : world)
    (request_json data : json) (request : form_request) (req : completion_request) :
  CreateCompletion req ∈ (run (chat cfg w request_json)).2
  \/ CreateCompletion req ∈ (run (upload_and_ask cfg w request)).2
  \/ CreateCompletion req ∈ (run (extract_text cfg w request)).2
  \/ CreateCompletion req ∈ (run (followup_chat cfg w data)).2 ->
  exists text,
    messages req !! 0%nat
    = Some (JObject (<[ "role" := JString "system" ]> {[ "content" := JString text ]}))
    /\ (text = "You answer using Azure Cognitive Search."
        \/ text = "You are an AI document assistant."
        \/ text = lines
               [ ""
               ; ""
               ; "        You are an AI assistant analyzing uploaded business documents."
               ; "        First, summarize key content(include problem trying to solve/address). Then extract:"
               ; "        - Technology Specs"
               ; "        -User numbers and deployment scale"
               ; "        -Current systems and pain points"
               ; "        - Action Items for proposal team"
               ; "        - Required integrations"
               ; "        - If suggesting BOM items, explain why they match the requirements"
               ; "        - Compliance requirements"
               ; "        -conclusive summary"
               ; "        If any section is missing, respond with: " +:+ dquote +:+ "This document does not contain information on [Missing Section]." +:+ dquote
               ; "        Respond clearly and conversationally."
               ; ""
               ; "        " ]).
Proof.
  intros H.
  apply completion_request_shapes in H
    as [[v ->] | [(t & q & ->) | (doc & history & ->)]];
    eexists; (split; [reflexivity | auto]).
Qed.

Lemma first_turn_is_fixed_system_turn_witness :
  exists text,
    messages (upload_request Demo.cfg "Budget: $500k. No compliance info."
                "What is the budget?") !! 0%nat
    = Some (JObject (<[ "role" := JString "system" ]> {[ "content" := JString text ]}))
    /\ (text = "You answer using Azure Cognitive Search."
        \/ text = "You are an AI document assistant."
        \/ text = lines
               [ ""
               ; ""
               ; "        You are an AI assistant analyzing uploaded business documents."
               ; "        First, summarize key content(include problem trying to solve/address). Then extract:"
               ; "        - Technology Specs"
               ; "        -User numbers and deployment scale"
               ; "        -Current systems and pain points"
               ; "        - Action Items for proposal team"
               ; "        - Required integrations"
               ; "        - If suggesting BOM items, explain why they match the requirements"
               ; "        - Compliance requirements"
               ; "        -conclusive summary"
               ; "        If any section is missing, respond with: " +:+ dquote +:+ "This document does not contain information on [Missing Section]." +:+ dquote
               ; "        Respond clearly and conversationally."
               ; ""
               ; "        " ]).
Proof.
  apply (first_turn_is_fixed_system_turn Demo.cfg Demo.answering JNull JNull
           (Demo.ask "What is the budget?")).
  right; left. vm_compute. do 3 apply list_elem_of_further. apply list_elem_of_here.
Defined.

(** ** What a request is read for *)

(** X20. The empty-string default of [chat] applies to an absent key
    only: a "message" that is present is used as it is, of whatever JSON
    type, an explicit null included.  The second turn sent to the
    completion service has role "user" and carries the prompt template with
    the message right after "User query: ": a string literally, any other
    value as Python's [str] renders it. *)
Theorem present_message_is_used (cfg : config) (w : world)
    (fields : gmap string json) (v : json) :
  fields !! "message" = Some v ->
  let user_turn (query : string) :=
    JObject (<[ "role" := JString "user" ]>
      {[ "content" := JString (lines
           [ ""
            ; "      You are an AI assistant helping users engage with business documents."
            ; "      User query: " +:+ query
            ; ""
            ; "    Always provide specific, relevant information      "
            ; "      First, give a general summary(Include scope & purpose). Then extract , focus on these:"
            ; "      - Technology Specs"
            ; "      - Problem being addressed"
            ; "        -User numbers and deployment scale"
            ; "        -Current systems and pain points"
            ; "        - Action Items for proposal team"
            ; "        - Required integrations"
            ; "        - If suggesting BOM items, explain why they match the requirements"
            ; "        If any section is missing, respond with: " +:+ dquote +:+ "This document does not contain information on [Missing Section]." +:+ dquote
            ; ""
            ; "        Respond clearly and conversationally."
            ; "    " ]) ]}) in
  exists req,
    (run (chat cfg w (JObject fields))).2 = [ CreateCompletion req ]
    /\ (forall query, v = JString query -> messages req !! 1%nat = Some (user_turn query))
    /\ ((forall query, v <> JString query) ->
        messages req !! 1%nat = Some (user_turn (str_of_value w v))).
Proof.
  intros Hv user_turn. exists (chatbot_request cfg w v). split; [| split].
  - rewrite chat_run. cbv zeta. now rewrite Hv.
  - now intros query ->.
  - intros Hother. destruct v; try reflexivity. now destruct (Hother s).
Qed.

Lemma present_message_is_used_witness :
  exists req,
    (run (chat Demo.cfg Demo.answering
            (JObject {[ "message" := JString "Summarize the proposal" ]}))).2
    = [ CreateCompletion req ]
    /\ messages req !! 1%nat
       = Some (JObject (<[ "role" := JString "user" ]>
           {[ "content" := JString (lines
           [ ""
            ; "      You are an AI assistant helping users engage with business documents."
            ; "      User query: Summarize the proposal"
            ; ""
            ; "    Always provide specific, relevant information      "
            ; "      First, give a general summary(Include scope & purpose). Then extract , focus on these:"
            ; "      - Technology Specs"
            ; "      - Problem being addressed"
            ; "        -User numbers and deployment scale"
            ; "        -Current systems and pain points"
            ; "        - Action Items for proposal team"
            ; "        - Required integrations"
            ; "        - If suggesting BOM items, explain why they match the requirements"
            ; "        If any section is missing, respond with: " +:+ dquote +:+ "This document does not contain information on [Missing Section]." +:+ dquote
            ; ""
            ; "        Respond clearly and conversationally."
            ; "    " ]) ]})).
Proof.
  destruct (present_message_is_used Demo.cfg Demo.answering
              {[ "message" := JString "Summarize the proposal" ]}
              (JString "Summarize the proposal"))
    as (req & Hlog & Hstring & _); [reflexivity |].
  exists req. split; [exact Hlog |]. now apply Hstring.
Defined.

(** X23. Fields a handler does not name are ignored: two bodies that agree
    on "message" get the same treatment from [chat], two bodies that agree
    on "doc" and "history" the same from [followup_chat], two multipart
    requests with the same file the same from [extract_text], and two with
    the same file and question the same from [upload_and_ask], whatever
    else they carry. *)
Theorem unnamed_fields_are_ignored (cfg : config) (w : world) :
  (forall fields1 fields2 : gmap string json,
     fields1 !! "message" = fields2 !! "message" ->
     run (chat cfg w (JObject fields1)) = run (chat cfg w (JObject fields2)))
  /\ (forall fields1 fields2 : gmap string json,
        fields1 !! "doc" = fields2 !! "doc" ->
        fields1 !! "history" = fields2 !! "history" ->
        run (followup_chat cfg w (JObject fields1))
        = run (followup_chat cfg w (JObject fields2)))
  /\ (forall request1 request2 : form_request,
        files request1 !! "file" = files request2 !! "file" ->
        run (extract_text cfg w request1) = run (extract_text cfg w request2))
  /\ (forall request1 request2 : form_request,
        files request1 !! "file" = files request2 !! "file" ->
        form request1 !! "question" = form request2 !! "question" ->
        run (upload_and_ask cfg w request1) = run (upload_and_ask cfg w request2)).
Proof.
  split; [| split; [| split]].
  - intros fields1 fields2 H. rewrite !chat_run. cbv zeta. now rewrite H.
  - intros fields1 fields2 Hdoc Hhist. rewrite !followup_chat_run.
    now rewrite Hdoc, Hhist.
  - intros request1 request2 H. rewrite !extract_text_run. now rewrite H.
  - intros request1 request2 Hf Hq. rewrite !upload_and_ask_run. now rewrite Hf, Hq.
Qed.

Lemma unnamed_fields_are_ignored_witness :
  run (chat Demo.cfg Demo.answering
         (JObject (<[ "user" := JString "mshayelo" ]>
                     {[ "message" := JString "Summarize the proposal" ]})))
  = run (chat Demo.cfg Demo.answering
           (JObject {[ "message" := JString "Summarize the proposal" ]})).
Proof.
  apply (proj1 (unnamed_fields_are_ignored Demo.cfg Demo.answering)). reflexivity.
Defined.

(** ** The debugging line of the extraction *)

(** X25. Once the upload steps of [extract_text] have succeeded, the
    answer hinges on the debugging [print] of the raw response, whose text
    starts with a magnifying glass and so is never plain ASCII.  If the
    process output encodes it, the answer is [{text: body}] with status 200
    when there are paragraphs and the 400 payload when there are none.  If
    it does not, the [UnicodeEncodeError] is reported as a 500, or leaves
    the handler when its message cannot be printed either.  No further
    call is made in any case. *)
Theorem extract_text_after_analysis (cfg : config) (w : world)
    (request : form_request) (file : FileStorage) (result : AnalyzeResult)
    (log : list event) :
  files request !! "file" = Some file ->
  upload_and_analyze cfg w file [] = (Ok result, log) ->
  let line := magnifier +:+ " Raw API Response: " +:+ str_of_result w result in
  printable w line = stdout_encodes w line
  /\ (run (extract_text cfg w request)).2 = log
  /\ (stdout_encodes w line = true ->
      (run (extract_text cfg w request)).1
      = Ok (if truthy_paragraphs (paragraphs result)
            then {| body := JObject {[ "text" :=
                        JString (join " " (paragraph_contents (paragraphs result))) ]};
                    status := 200 |}
            else {| body := JObject {[ "error" :=
                        JString "No text extracted from document" ]};
                    status := 400 |}))
  /\ (stdout_encodes w line = false ->
      (run (extract_text cfg w request)).1
      = if printable w (" Error extracting text: " +:+ str_exn w UnicodeEncodeError)
        then Ok {| body := JObject {[ "error" := JString (str_exn w UnicodeEncodeError) ]};
                   status := 500 |}
        else Raise UnicodeEncodeError).
Proof.
  intros Hfile Hrun line.
  assert (Hline : printable w line = stdout_encodes w line) by reflexivity.
  split; [exact Hline |].
  rewrite extract_text_run, Hfile, Hrun. cbv beta zeta.
  change (raw_response_line w result) with line. rewrite Hline.
  unfold error_line. split; [| split].
  - repeat match goal with
           | |- context [if ?c then _ else _] => destruct c
           end; reflexivity.
  - intros ->. now destruct (truthy_paragraphs (paragraphs result)).
  - intros ->.
    now destruct (printable w (" Error extracting text: " +:+ str_exn w UnicodeEncodeError)).
Qed.

Lemma extract_text_after_analysis_witness :
  (run (extract_text Demo.cfg Faults.text_on_ascii_stdout
          (Demo.ask "What is the budget?"))).1
  = Ok {| body := JObject {[ "error" := JString Faults.ascii_codec_error ]};
          status := 500 |}.
Proof.
  destruct (extract_text_after_analysis Demo.cfg Faults.text_on_ascii_stdout
              (Demo.ask "What is the budget?") Demo.report
              {| paragraphs := Some Demo.budget |}
              (upload_and_analyze Demo.cfg Faults.text_on_ascii_stdout Demo.report []).2)
    as (_ & _ & _ & Hnarrow); [reflexivity | reflexivity |].
  rewrite Hnarrow by reflexivity. reflexivity.
Defined.

(** ** The layout of the upload prompt *)

Section PromptOrder.

Lemma find_from_shift (p s : string) (off : nat) :
  find_from off p s = (fun i => (off + i)%nat) <$> find_from 0 p s.
Proof.
  revert off; induction s as [|c s IH]; intros off;
    rewrite (find_from_unfold off), (find_from_unfold 0).
  - destruct (startswith p ""); cbn; [f_equal; lia | reflexivity].
  - destruct (startswith p (String c s)); cbn; [f_equal; lia |].
    rewrite (IH (S off)), (IH 1%nat).
    destruct (find_from 0 p s); cbn; [f_equal; lia | reflexivity].
Qed.

Lemma drop_app_le (n : nat) (x y : string) :
  (n <= String.length x)%nat -> drop n (x +:+ y) = drop n x +:+ y.
Proof.
  revert x; induction n as [|n IH]; intros [|c x] H; simpl in *;
    try reflexivity; try lia.
  apply IH. lia.
Qed.

(** The first occurrence of a text that was pasted in ends no later than
    the pasted one: what followed the pasted text is still there after it. *)
Lemma find_keeps_suffix (p a b : string) :
  exists i pre,
    find p (a +:+ p +:+ b) = Some i
    /\ drop (i + String.length p) (a +:+ p +:+ b) = pre +:+ b.
Proof.
  unfold find. induction a as [|c a (i & pre & Hfind & Hdrop)];
    rewrite find_from_unfold.
  - exists 0%nat, "". simpl. rewrite startswith_app.
    split; [reflexivity | apply drop_app_length].
  - destruct (startswith p (String c a +:+ p +:+ b)).
    + exists 0%nat, (drop (String.length p) (String c a +:+ p)).
      split; [reflexivity |]. simpl Nat.add.
      rewrite <- (str_app_assoc (String c a) p b).
      apply drop_app_le. rewrite str_length_app. lia.
    + exists (S i), pre. simpl.
      rewrite find_from_shift, Hfind. split; [reflexivity | exact Hdrop].
Qed.

(** A needle pasted into a text is found, and the search for the further
    needles goes on in a text that still ends with what followed it. *)
Lemma in_order_pasted (p a b : string) (rest : list string) :
  (forall pre, in_order rest (pre +:+ b) = true) ->
  in_order (p :: rest) (a +:+ p +:+ b) = true.
Proof.
  intros Hrest. destruct (find_keeps_suffix p a b) as (i & pre & Hfind & Hdrop).
  cbn [in_order]. rewrite Hfind, Hdrop. apply Hrest.
Qed.

End PromptOrder.

(** X24. Whatever the document body and the question contain, the user
    prompt of [upload_and_ask] opens with the fixed heading and then has,
    one after the other, the document body, the words "They asked:", the
    question, and the instruction to answer from the document only. *)
Theorem upload_prompt_order (full_text user_question : string) :
  startswith (lines upload_head) (upload_prompt full_text user_question) = true
  /\ in_order [ full_text; "They asked:"; user_question
              ; "Please answer using only the document's contents." ]
       (upload_prompt full_text user_question) = true.
Proof.
  unfold upload_prompt. split; [apply startswith_app |].
  apply in_order_pasted. intros pre1.
  replace (pre1 +:+ lines upload_mid +:+ user_question +:+ lines upload_tail)
    with ((pre1 +:+ nl +:+ nl +:+ "        ") +:+ "They asked:"
          +:+ (nl +:+ "        ") +:+ user_question +:+ lines upload_tail).
  2: { change (lines upload_mid)
         with ((nl +:+ nl +:+ "        ") +:+ "They asked:" +:+ (nl +:+ "        ")).
       now rewrite !str_app_assoc. }
  apply in_order_pasted. intros pre2.
  replace (pre2 +:+ (nl +:+ "        ") +:+ user_question +:+ lines upload_tail)
    with ((pre2 +:+ nl +:+ "        ") +:+ user_question +:+ lines upload_tail)
    by now rewrite !str_app_assoc.
  apply in_order_pasted. intros pre3.
  replace (pre3 +:+ lines upload_tail)
    with ((pre3 +:+ nl +:+ nl +:+ "        ")
          +:+ "Please answer using only the document's contents."
          +:+ (nl +:+ "        ")).
  2: { change (lines upload_tail)
         with ((nl +:+ nl +:+ "        ")
               +:+ "Please answer using only the document's contents."
               +:+ (nl +:+ "        ")).
       now rewrite !str_app_assoc. }
  apply in_order_pasted. reflexivity.
Qed.
